(** * MediTracker: the medication store of [app4.py] and its persistence

    A shallow embedding of the [MedicationTracker] class (lines 54-159 of
    [app4.py]) and of the page handlers that read or rewrite its collections
    (the active / archived filters, the "Clean Old Data" button and the
    per-medication side-effect analysis), followed by the properties the
    specification states about them.

    Conventions of the embedding.
    - A Python [dict] used as a map is a [gmap string _]; a [dict] used as a
      record is a Rocq [Record] whose optional keys are [option] fields.
    - A Python exception is the [Raise] branch of [result]; [try/except] is
      [try_except].
    - The environment is explicit: the value of [str(uuid.uuid4())] and of
      [datetime.now()] are arguments of the operation that evaluates them,
      and the backing file is a component of the [World] the operations
      transform.
    - [datetime.isoformat] and [datetime.fromisoformat] belong to the Python
      standard library; they are the two methods of the class [Clock], and
      [Tzinfo] tells which strings are read as offset-aware.  [uuid.uuid4]
      is given by its contract, the class [Uuid]. *)

From stdpp Require Import gmap strings list fin_maps pretty sorting.
From Stdlib Require Import ZArith QArith.
From Stdlib Require OrdersEx.
Close Scope Q_scope.

Local Open Scope Z_scope.

(** ** Python values and exceptions *)

(** The values [json.load] produces and [json.dump] writes without calling
    its [default] hook.  ([float] is left out: no operation of the store
    creates one.) *)
#[warnings="-register-all"]
Inductive value : Type :=
  | VNone
  | VBool (b : bool)
  | VInt (z : Z)
  | VStr (s : string)
  | VList (l : list value)
  | VDict (d : gmap string value).

Inductive exn : Type :=
  | KeyError
  | ValueError
  | TypeError
  | AttributeError
  | OSError.

Inductive result (A : Type) : Type :=
  | Ok (a : A)
  | Raise (e : exn).
Arguments Ok {A} a.
Arguments Raise {A} e.

#[global] Instance result_ret : MRet result := @Ok.

#[global] Instance result_fmap : FMap result := λ A B f r,
  match r with
  | Ok a => Ok (f a)
  | Raise e => Raise e
  end.

#[global] Instance result_bind : MBind result := λ A B k r,
  match r with
  | Ok a => k a
  | Raise e => Raise e
  end.

(** [try: body except: handler] with a bare [except]. *)
Definition try_except {A : Type} (body : result A) (handler : result A) : result A :=
  match body with
  | Ok a => Ok a
  | Raise _ => handler
  end.

(** [d[k]] and [del d[k]] on a [dict]: both raise [KeyError] on a missing key. *)
Definition getitem {V : Type} (d : gmap string V) (k : string) : result V :=
  match d !! k with
  | Some v => Ok v
  | None => Raise KeyError
  end.

Definition delitem {V : Type} (d : gmap string V) (k : string) : result (gmap string V) :=
  match d !! k with
  | Some _ => Ok (delete k d)
  | None => Raise KeyError
  end.

(** [k in d] *)
Definition contains {V : Type} (d : gmap string V) (k : string) : bool :=
  bool_decide (is_Some (d !! k)).

(** ** Data model: the dictionaries the store builds *)

(** [datetime] values are naive; they are counted in microseconds. *)
Definition datetime : Type := Z.

Definition timedelta (days : Z) : Z := days * 86400000000.

Class Clock : Type := {
  isoformat : datetime → string;
  fromisoformat : string → result datetime
}.

(** A [datetime] is naive or carries an offset.  [fromisoformat] above gives
    the date and time of day read from the string; [tzinfo s] is the
    [tzinfo] of the [datetime] read from [s]: [None] when [s] has no offset,
    the offset (in microseconds) when it ends in one, as in
    ["2024-06-01T08:00:00+00:00"]. *)
Class Tzinfo : Type := {
  tzinfo : string → option Z
}.

(** [d >= cutoff] for a naive [cutoff]: comparing an offset-aware [datetime]
    with a naive one raises [TypeError]. *)
Definition ge_naive (tz : option Z) (d cutoff : datetime) : result bool :=
  match tz with
  | None => Ok (cutoff <=? d)
  | Some _ => Raise TypeError
  end.

(** The dict literal of [add_medication] (lines 95-103); the keys
    ['archived_date'] and ['archive_reason'] exist only after
    [archive_medication]. *)
Record Medication : Type := {
  name : string;
  dosage : string;
  frequency : string;
  times : list string;
  notes : string;
  created_date : string;
  active : bool;
  archived_date : option string;
  archive_reason : option string
}.

(** The dict literal of [log_side_effect] (lines 109-116). *)
Record SideEffect : Type := {
  se_id : string;
  med_id : string;
  se_timestamp : string;
  effect : string;
  severity : Z;
  se_notes : string
}.

(** The dict literal of [log_mood] (lines 122-127). *)
Record Mood : Type := {
  mood_id : string;
  mood_timestamp : string;
  mood_score : Z;
  mood_notes : string
}.

(** The attributes of a [MedicationTracker] whose collections hold records
    of the shapes above. *)
Record MedicationTracker : Type := {
  medications : gmap string Medication;
  logs : list value;
  mood_logs : list Mood;
  side_effects : list SideEffect
}.

(** The attributes as [load_data] assigns them: whatever the document holds. *)
Record Attributes : Type := {
  a_medications : value;
  a_logs : value;
  a_mood_logs : value;
  a_side_effects : value
}.

(** The backing file [medication_data.json], identified with what reading
    and parsing it gives: [Document v] is a file on which [json.load]
    returns [v], and the file [json.dump] writes for [v] is of this kind
    (the text itself, its indentation and escapes are not modelled).
    [Unreadable] stands for every failure of [open] or [json.load]. *)
Inductive file : Type :=
  | Unreadable
  | Document (v : value).

Record World : Type := {
  self : MedicationTracker;
  data_file : option file
}.

(** *** Field assignment *)

Definition set_active (b : bool) (m : Medication) : Medication :=
  {| name := name m; dosage := dosage m; frequency := frequency m;
     times := times m; notes := notes m; created_date := created_date m;
     active := b;
     archived_date := archived_date m; archive_reason := archive_reason m |}.

Definition set_archived_date (d : option string) (m : Medication) : Medication :=
  {| name := name m; dosage := dosage m; frequency := frequency m;
     times := times m; notes := notes m; created_date := created_date m;
     active := active m;
     archived_date := d; archive_reason := archive_reason m |}.

Definition set_archive_reason (r : option string) (m : Medication) : Medication :=
  {| name := name m; dosage := dosage m; frequency := frequency m;
     times := times m; notes := notes m; created_date := created_date m;
     active := active m;
     archived_date := archived_date m; archive_reason := r |}.

(** [del m['archived_date']] and [del m['archive_reason']] *)
Definition del_archived_date (m : Medication) : result Medication :=
  match archived_date m with
  | Some _ => Ok (set_archived_date None m)
  | None => Raise KeyError
  end.

Definition del_archive_reason (m : Medication) : result Medication :=
  match archive_reason m with
  | Some _ => Ok (set_archive_reason None m)
  | None => Raise KeyError
  end.

Definition set_medications (meds : gmap string Medication) (t : MedicationTracker)
  : MedicationTracker :=
  {| medications := meds; logs := logs t;
     mood_logs := mood_logs t; side_effects := side_effects t |}.

Definition set_mood_logs (l : list Mood) (t : MedicationTracker) : MedicationTracker :=
  {| medications := medications t; logs := logs t;
     mood_logs := l; side_effects := side_effects t |}.

Definition set_side_effects (l : list SideEffect) (t : MedicationTracker)
  : MedicationTracker :=
  {| medications := medications t; logs := logs t;
     mood_logs := mood_logs t; side_effects := l |}.

(** *** The records as Python values *)

Definition opt_key (k : string) (o : option string) (d : gmap string value)
  : gmap string value :=
  match o with
  | Some s => <[k := VStr s]> d
  | None => d
  end.

Definition medication_value (m : Medication) : value :=
  VDict (opt_key "archive_reason" (archive_reason m)
        (opt_key "archived_date" (archived_date m)
        (<["name" := VStr (name m)]>
        (<["dosage" := VStr (dosage m)]>
        (<["frequency" := VStr (frequency m)]>
        (<["times" := VList (VStr <$> times m)]>
        (<["notes" := VStr (notes m)]>
        (<["created_date" := VStr (created_date m)]>
        (<["active" := VBool (active m)]> ∅))))))))).

Definition side_effect_value (e : SideEffect) : value :=
  VDict (<["id" := VStr (se_id e)]>
        (<["med_id" := VStr (med_id e)]>
        (<["timestamp" := VStr (se_timestamp e)]>
        (<["effect" := VStr (effect e)]>
        (<["severity" := VInt (severity e)]>
        (<["notes" := VStr (se_notes e)]> ∅)))))).

Definition mood_value (m : Mood) : value :=
  VDict (<["id" := VStr (mood_id m)]>
        (<["timestamp" := VStr (mood_timestamp m)]>
        (<["mood_score" := VInt (mood_score m)]>
        (<["notes" := VStr (mood_notes m)]> ∅)))).

Definition attributes (t : MedicationTracker) : Attributes :=
  {| a_medications := VDict (medication_value <$> medications t);
     a_logs := VList (logs t);
     a_mood_logs := VList (mood_value <$> mood_logs t);
     a_side_effects := VList (side_effect_value <$> side_effects t) |}.

(** Reading a value back as a record: [None] when it has another shape. *)
Definition as_str (v : value) : option string :=
  match v with VStr s => Some s | _ => None end.

Definition as_int (v : value) : option Z :=
  match v with VInt z => Some z | _ => None end.

Definition as_bool (v : value) : option bool :=
  match v with VBool b => Some b | _ => None end.

Definition as_list (v : value) : option (list value) :=
  match v with VList l => Some l | _ => None end.

Definition as_dict (v : value) : option (gmap string value) :=
  match v with VDict d => Some d | _ => None end.

Definition field {A : Type} (as_a : value → option A) (d : gmap string value) (k : string)
  : option A :=
  d !! k ≫= as_a.

(** An optional key: absent, or present with a string. *)
Definition opt_field (d : gmap string value) (k : string) : option (option string) :=
  match d !! k with
  | None => Some None
  | Some v => Some <$> as_str v
  end.

Definition value_medication (v : value) : option Medication :=
  d ← as_dict v;
  n ← field as_str d "name";
  ds ← field as_str d "dosage";
  fr ← field as_str d "frequency";
  tl ← field as_list d "times";
  ts ← mapM as_str tl;
  nt ← field as_str d "notes";
  cd ← field as_str d "created_date";
  ac ← field as_bool d "active";
  ad ← opt_field d "archived_date";
  ar ← opt_field d "archive_reason";
  Some {| name := n; dosage := ds; frequency := fr; times := ts; notes := nt;
          created_date := cd; active := ac;
          archived_date := ad; archive_reason := ar |}.

Definition value_side_effect (v : value) : option SideEffect :=
  d ← as_dict v;
  i ← field as_str d "id";
  m ← field as_str d "med_id";
  ts ← field as_str d "timestamp";
  ef ← field as_str d "effect";
  sv ← field as_int d "severity";
  nt ← field as_str d "notes";
  Some {| se_id := i; med_id := m; se_timestamp := ts; effect := ef;
          severity := sv; se_notes := nt |}.

Definition value_mood (v : value) : option Mood :=
  d ← as_dict v;
  i ← field as_str d "id";
  ts ← field as_str d "timestamp";
  sc ← field as_int d "mood_score";
  nt ← field as_str d "notes";
  Some {| mood_id := i; mood_timestamp := ts; mood_score := sc; mood_notes := nt |}.

Definition value_medications (v : value) : option (gmap string Medication) :=
  match v with
  | VDict d =>
      if decide (map_Forall (λ _ x, is_Some (value_medication x)) d)
      then Some (omap value_medication d)
      else None
  | _ => None
  end.

(** The tracker whose attributes are [a], when they have the shapes of the
    data model. *)
Definition tracker_of (a : Attributes) : option MedicationTracker :=
  meds ← value_medications (a_medications a);
  lg ← as_list (a_logs a);
  ml ← as_list (a_mood_logs a) ≫= mapM value_mood;
  se ← as_list (a_side_effects a) ≫= mapM value_side_effect;
  Some {| medications := meds; logs := lg; mood_logs := ml; side_effects := se |}.

(** ** Persistence (lines 59-90) *)

(** [initialize_empty_data] *)
Definition initialize_empty_data : Attributes :=
  {| a_medications := VDict ∅;
     a_logs := VList [];
     a_mood_logs := VList [];
     a_side_effects := VList [] |}.

(** [json.load(f)] after [open(self.data_file, 'r')] *)
Definition json_load (f : file) : result value :=
  match f with
  | Unreadable => Raise ValueError
  | Document v => Ok v
  end.

(** [data.get(key, dflt)]: only a [dict] has the method. *)
Definition dict_get (data : value) (key : string) (dflt : value) : result value :=
  match data with
  | VDict d => Ok (default dflt (d !! key))
  | _ => Raise AttributeError
  end.

(** The body of the [try] of [load_data] (lines 63-68).  The four attributes
    are assigned one after the other; an exception in between would leave
    the earlier ones assigned, but [dict_get] raises on the first call or on
    none. *)
Definition load_body (f : file) : result Attributes :=
  data ← json_load f;
  meds ← dict_get data "medications" (VDict ∅);
  lg ← dict_get data "logs" (VList []);
  ml ← dict_get data "mood_logs" (VList []);
  se ← dict_get data "side_effects" (VList []);
  Ok {| a_medications := meds; a_logs := lg; a_mood_logs := ml; a_side_effects := se |}.

(** [load_data]: [os.path.exists] is [data_file ≠ None]. *)
Definition load_data (fs : option file) : result Attributes :=
  match fs with
  | Some f => try_except (load_body f) (Ok initialize_empty_data)
  | None => Ok initialize_empty_data
  end.

(** The dict [data] of [save_data] (lines 83-88). *)
Definition document (a : Attributes) : value :=
  VDict (<["medications" := a_medications a]>
        (<["logs" := a_logs a]>
        (<["mood_logs" := a_mood_logs a]>
        (<["side_effects" := a_side_effects a]> ∅)))).

(** [save_data]: the file is overwritten with the whole document.  (A
    failing write is not modelled.) *)
Definition save_data (t : MedicationTracker) : World :=
  {| self := t; data_file := Some (Document (document (attributes t))) |}.

(** ** Operations of the store (lines 92-159) *)

Section Operations.
Context `{clock : Clock} `{zone : Tzinfo}.

(** [uid] is the value of [str(uuid.uuid4())], [now] of [datetime.now()]. *)
Definition add_medication (uid : string) (now : datetime)
    (name dosage frequency : string) (times : list string) (notes : string)
    (w : World) : World * string :=
  let med :=
    {| name := name; dosage := dosage; frequency := frequency; times := times;
       notes := notes; created_date := isoformat now; active := true;
       archived_date := None; archive_reason := None |} in
  (save_data (set_medications (<[uid := med]> (medications (self w))) (self w)), uid).

Definition log_side_effect (uid : string) (now : datetime)
    (med_id effect : string) (severity : Z) (notes : string) (w : World) : World :=
  let side_effect_entry :=
    {| se_id := uid; med_id := med_id; se_timestamp := isoformat now;
       effect := effect; severity := severity; se_notes := notes |} in
  save_data (set_side_effects (side_effects (self w) ++ [side_effect_entry]) (self w)).

Definition log_mood (uid : string) (now : datetime) (mood_score : Z) (notes : string)
    (w : World) : World :=
  let mood_entry :=
    {| mood_id := uid; mood_timestamp := isoformat now;
       mood_score := mood_score; mood_notes := notes |} in
  save_data (set_mood_logs (mood_logs (self w) ++ [mood_entry]) (self w)).

Definition delete_medication (med_id : string) (w : World) : result (World * bool) :=
  if contains (medications (self w)) med_id then
    meds ← delitem (medications (self w)) med_id;
    Ok (save_data (set_medications meds (self w)), true)
  else Ok (w, false).

(** [self.medications[med_id][key] = v]: the record is looked up, then
    updated in place. *)
Definition assign (med_id : string) (f : Medication → Medication)
    (meds : gmap string Medication) : result (gmap string Medication) :=
  m ← getitem meds med_id;
  Ok (<[med_id := f m]> meds).

Definition archive_medication (now : datetime) (med_id reason : string) (w : World)
  : result (World * bool) :=
  if contains (medications (self w)) med_id then
    meds1 ← assign med_id (set_active false) (medications (self w));
    meds2 ← assign med_id (set_archived_date (Some (isoformat now))) meds1;
    meds3 ← assign med_id (set_archive_reason (Some reason)) meds2;
    Ok (save_data (set_medications meds3 (self w)), true)
  else Ok (w, false).

(** [if key in self.medications[med_id]: del self.medications[med_id][key]] *)
Definition del_if_present (med_id : string) (present : Medication → bool)
    (del : Medication → result Medication) (meds : gmap string Medication)
  : result (gmap string Medication) :=
  m ← getitem meds med_id;
  if present m then
    m0 ← getitem meds med_id;
    m' ← del m0;
    Ok (<[med_id := m']> meds)
  else Ok meds.

Definition reactivate_medication (med_id : string) (w : World) : result (World * bool) :=
  if contains (medications (self w)) med_id then
    meds1 ← assign med_id (set_active true) (medications (self w));
    meds2 ← del_if_present med_id (λ m, bool_decide (is_Some (archived_date m)))
              del_archived_date meds1;
    meds3 ← del_if_present med_id (λ m, bool_decide (is_Some (archive_reason m)))
              del_archive_reason meds2;
    Ok (save_data (set_medications meds3 (self w)), true)
  else Ok (w, false).

(** ** Page handlers over the store *)

(** [{med_id: med for med_id, med in tracker.medications.items() if med['active']}]
    (lines 220, 333, 516) and its complement (line 405). *)
Definition active_meds (t : MedicationTracker) : gmap string Medication :=
  filter (λ kv, active kv.2 = true) (medications t).

Definition archived_meds (t : MedicationTracker) : gmap string Medication :=
  filter (λ kv, negb (active kv.2) = true) (medications t).

(** A list comprehension whose condition may raise. *)
Fixpoint comprehension {A : Type} (cond : A → result bool) (l : list A) : result (list A) :=
  match l with
  | [] => Ok []
  | x :: l' =>
      b ← cond x;
      rest ← comprehension cond l';
      Ok (if (b : bool) then x :: rest else rest)
  end.

(** The "Clean Old Data" button (lines 483-496): the new world and
    [se_removed]. *)
Definition clean_old_data (now : datetime) (w : World) : result (World * Z) :=
  let cutoff_date := now - timedelta 365 in
  let original_side_effect_count := Z.of_nat (length (side_effects (self w))) in
  kept ← comprehension
            (λ se, ts ← fromisoformat (se_timestamp se);
                   ge_naive (tzinfo (se_timestamp se)) ts cutoff_date)
            (side_effects (self w));
  let w' := save_data (set_side_effects kept (self w)) in
  Ok (w', original_side_effect_count - Z.of_nat (length (side_effects (self w')))).

End Operations.

(** ** Identifiers *)

(** [str(uuid.uuid4())].  A UUID is universally unique: when the ids in
    [issued] are those issued so far, by this run of the program or by an
    earlier one, the new id is none of them.  The store relies on this: it
    never compares a new id with the keys of its map. *)
Class Uuid : Type := {
  uuid4 : gset string → string;
  uuid4_unique : ∀ issued, uuid4 issued ∉ issued
}.

(** [add_medication] together with the call of [uuid.uuid4()] it makes
    (line 94): the id is drawn, and is issued from then on. *)
Definition add_medication_uuid4 `{clock : Clock} `{uuid : Uuid} (issued : gset string)
    (now : datetime) (name dosage frequency : string) (times : list string)
    (notes : string) (w : World) : World * string * gset string :=
  let med_id := uuid4 issued in
  (add_medication med_id now name dosage frequency times notes w, {[med_id]} ∪ issued).

(** A string of [n] letters. *)
Fixpoint letters (n : nat) : string :=
  match n with
  | O => ""
  | S n' => String (Ascii.ascii_of_nat 120) (letters n')
  end.

(** A generator for the examples: the first of two UUIDs that is not issued
    yet, and after them a string longer than every issued one. *)
Definition sample_uuid4 (issued : gset string) : string :=
  match filter (λ u, u ∉ issued)
          ["7c9e6679-7425-40de-944b-e07fc1f90ae7"; "16fd2706-8baf-433b-82eb-8c7fada847da"]
  with
  | u :: _ => u
  | [] => letters (S (foldr (λ s, Nat.max (String.length s)) 0%nat (elements issued)))
  end.

(** *** Medication side-effect analysis (lines 638-657) *)

Record Analysis : Type := {
  total_effects : Z;
  avg_severity : Q;
  severities : list Z
}.

(** [med_info['name'] if med_info else "Unknown (Deleted)"] *)
Definition med_name_of (meds : gmap string Medication) (med_id : string) : string :=
  match meds !! med_id with
  | Some med_info => name med_info
  | None => "Unknown (Deleted)"
  end.

(** One round of the first loop (lines 640-653).  The two updates of
    [med_analysis[med_name]] find the row: it is created just before when
    it is missing. *)
Definition analyse_effect (meds : gmap string Medication)
    (med_analysis : gmap string Analysis) (e : SideEffect) : gmap string Analysis :=
  let med_name := med_name_of meds (med_id e) in
  let med_analysis1 :=
    if contains med_analysis med_name then med_analysis
    else <[med_name := {| total_effects := 0; avg_severity := 0%Q; severities := [] |}]>
           med_analysis in
  alter (λ a, {| total_effects := total_effects a + 1;
                 avg_severity := avg_severity a;
                 severities := severities a ++ [severity e] |})
        med_name med_analysis1.

Definition sum (l : list Z) : Z := foldr Z.add 0 l.

(** [sum(l) / len(l)] as the exact quotient; Python rounds it to the nearest
    double and raises [ZeroDivisionError] on an empty list, which no group
    has: a row is created together with its first severity. *)
Definition mean (l : list Z) : Q :=
  (inject_Z (sum l) / inject_Z (Z.of_nat (length l)))%Q.

(** The second loop (lines 656-657). *)
Definition set_avg_severity (a : Analysis) : Analysis :=
  {| total_effects := total_effects a;
     avg_severity := mean (severities a);
     severities := severities a |}.

Definition med_analysis (meds : gmap string Medication) (effects : list SideEffect)
  : gmap string Analysis :=
  set_avg_severity <$> foldl (analyse_effect meds) ∅ effects.

(** ** Properties the specification words, as definitions *)

(** A timestamp as the store writes it: it parses, to a naive [datetime]. *)
Definition naive_stamp `{clock : Clock} `{zone : Tzinfo} (se : SideEffect) : Prop :=
  (∃ d, fromisoformat (se_timestamp se) = Ok d) ∧ tzinfo (se_timestamp se) = None.

(** "timestamp strictly older than the cutoff" *)
Definition older_than `{clock : Clock} (cutoff : datetime) (se : SideEffect) : bool :=
  match fromisoformat (se_timestamp se) with
  | Ok d => d <? cutoff
  | Raise _ => false
  end.

(** "group side effects by medication id and compute count + mean severity
    per group": the row shown for a stored medication aggregates the entries
    that carry its id. *)
Definition aggregates_per_medication_id
    (meds : gmap string Medication) (effects : list SideEffect) : Prop :=
  ∀ id m, meds !! id = Some m →
    let group := filter (λ e, med_id e = id) effects in
    group ≠ [] →
    ∃ a, med_analysis meds effects !! name m = Some a ∧
         total_effects a = Z.of_nat (length group) ∧
         (avg_severity a == mean (severity <$> group))%Q.

(** The key under which an entry is counted by [med_analysis]. *)
Definition shown_as (meds : gmap string Medication) (n : string) (e : SideEffect) : Prop :=
  med_name_of meds (med_id e) = n.

#[global] Instance shown_as_dec meds n e : Decision (shown_as meds n e).
Proof. unfold shown_as. apply _. Defined.

(** ** The remaining page handlers *)

(** *** Dashboard and statistics (lines 206, 214, 505, 509) *)

(** [d.values()] *)
Definition values {V : Type} (d : gmap string V) : list V := (map_to_list d).*2.

(** [len([m for m in tracker.medications.values() if m['active']])] *)
Definition active_count (t : MedicationTracker) : nat :=
  length (filter (λ m, active m = true) (values (medications t))).

(** [len([m for m in tracker.medications.values() if not m['active']])] *)
Definition archived_count (t : MedicationTracker) : nat :=
  length (filter (λ m, negb (active m) = true) (values (medications t))).

(** [[se for se in tracker.side_effects if se['med_id'] == med_id]]
    (lines 349, 383, 426). *)
Definition med_side_effects (med_id0 : string) (t : MedicationTracker) : list SideEffect :=
  filter (λ se, med_id se = med_id0) (side_effects t).

(** *** "Confirm Delete" (lines 388-391 and 454-456) *)

(** The side effects of the medication are dropped from the list in memory,
    then [delete_medication] removes the medication and saves. *)
Definition confirm_delete (med_id0 : string) (w : World) : result World :=
  let w1 :=
    {| self := set_side_effects (filter (λ se, med_id se ≠ med_id0) (side_effects (self w)))
                 (self w);
       data_file := data_file w |} in
  fst <$> delete_medication med_id0 w1.

(** *** The "Add Medication" form (lines 243-321) *)

(** The value of a [st.time_input]: hour and minute. *)
Definition time : Type := nat * nat.

Definition digit (d : nat) : Ascii.ascii := Ascii.ascii_of_nat (48 + d).

(** Two decimal digits, padded with a zero. *)
Definition pad2 (n : nat) : string :=
  String (digit (n / 10)) (String (digit (n mod 10)) "").

(** [dose_time.strftime("%H:%M")] *)
Definition strftime_HM (t : time) : string := pad2 t.1 +:+ ":" +:+ pad2 t.2.

(** Truth value of a string: non-empty. *)
Definition truthy (s : string) : bool := bool_decide (s ≠ "").

(** The order of [list.sort] on strings. *)
Definition string_le (s1 s2 : string) : Prop := String.leb s1 s2 = true.

#[global] Instance string_le_dec s1 s2 : Decision (string_le s1 s2).
Proof. unfold string_le. apply _. Defined.

(** The loop over the [doses_per_day] time inputs (lines 263-282):
    [dose_time i] is the value of the input with key [dose_time_i]. *)
Definition collect_times (doses_per_day : Z) (dose_time : nat → option time) : list string :=
  omap (λ i, strftime_HM <$> dose_time i) (seq 0 (Z.to_nat doses_per_day)).

Inductive form_result : Type :=
  | Added (med_id : string)
  | Rejected (error_messages : list string).

(** The handler of a submitted form (lines 296-321).  [st.error] shows the
    messages joined by commas. *)
Definition add_medication_form `{clock : Clock} (uid : string) (now : datetime)
    (med_name dosage : string) (doses_per_day : Z) (dose_time : nat → option time)
    (notes : string) (w : World) : World * form_result :=
  let times := collect_times doses_per_day dose_time in
  if truthy med_name && truthy dosage
     && bool_decide (Z.of_nat (length times) = doses_per_day) && forallb truthy times
  then
    let times := merge_sort string_le times in
    let frequency_label := pretty doses_per_day +:+ " times daily" in
    let '(w', med_id) :=
      add_medication uid now med_name dosage frequency_label times notes w in
    (w', Added med_id)
  else
    let error_messages :=
      (if truthy med_name then [] else ["medication name"]) ++
      (if truthy dosage then [] else ["dosage"]) ++
      (if bool_decide (Z.of_nat (length times) ≠ doses_per_day) || negb (forallb truthy times)
       then ["all medication times"] else []) in
    (w, Rejected error_messages).

(** *** Side effect history (lines 571-587) *)

(** [sorted(l, key=lambda x: x['timestamp'], reverse=True)]: newest first,
    entries with equal timestamps in their order in [l]. *)
Fixpoint insert_newest_first (x : SideEffect) (l : list SideEffect) : list SideEffect :=
  match l with
  | [] => [x]
  | y :: l' =>
      if String.ltb (se_timestamp x) (se_timestamp y)
      then y :: insert_newest_first x l'
      else x :: y :: l'
  end.

Definition newest_first (l : list SideEffect) : list SideEffect :=
  foldr insert_newest_first [] l.

(** The dict of severity labels, indexed by [effect['severity']]. *)
Definition severity_display (s : Z) : result string :=
  if decide (s = 1) then Ok "😐 Mild"
  else if decide (s = 2) then Ok "😕 Moderate"
  else if decide (s = 3) then Ok "😣 Significant"
  else if decide (s = 4) then Ok "😰 Severe"
  else if decide (s = 5) then Ok "🚨 Very Severe"
  else Raise KeyError.

(** What one expander shows. *)
Record HistoryRow : Type := {
  row_title : string;
  row_severity : string;
  row_notes : option string
}.

Section History.
Context `{clock : Clock}.
(** [strftime("%Y-%m-%d %H:%M")] on a [datetime] *)
Variable strftime_minute : datetime → string.

Definition history_row (meds : gmap string Medication) (e : SideEffect) : result HistoryRow :=
  let med_name := med_name_of meds (med_id e) in
  label ← severity_display (severity e);
  d ← fromisoformat (se_timestamp e);
  let timestamp := strftime_minute d in
  Ok {| row_title := "**" +:+ effect e +:+ "** - " +:+ med_name +:+ " (" +:+ timestamp +:+ ")";
        row_severity := "**Severity:** " +:+ label;
        row_notes := if truthy (se_notes e) then Some ("**Notes:** " +:+ se_notes e)
                     else None |}.

(** The loop over the ten newest entries; an exception ends it. *)
Fixpoint history_rows (meds : gmap string Medication) (l : list SideEffect)
  : result (list HistoryRow) :=
  match l with
  | [] => Ok []
  | e :: l' =>
      r ← history_row meds e;
      rs ← history_rows meds l';
      Ok (r :: rs)
  end.

Definition side_effect_history (t : MedicationTracker) : result (list HistoryRow) :=
  history_rows (medications t) (take 10 (newest_first (side_effects t))).

End History.

(** *** "Export Data" (lines 748-762) *)

(** The dict handed to [json.dumps]. *)
Definition export_data `{clock : Clock} (now : datetime) (t : MedicationTracker) : value :=
  let a := attributes t in
  VDict (<["medications" := a_medications a]>
        (<["logs" := a_logs a]>
        (<["mood_logs" := a_mood_logs a]>
        (<["side_effects" := a_side_effects a]>
        (<["export_date" := VStr (isoformat now)]> ∅))))).

(** *** Totals of the analysis table *)

(** The sum of the column "Total Side Effects". *)
Definition total_rows (rows : gmap string Analysis) : Z :=
  map_fold (λ _ a acc, total_effects a + acc) 0 rows.

(** *** Words for the properties of the handlers *)

(** The times entered in the form, in the order of the inputs. *)
Definition entered_times (doses_per_day : Z) (dose_time : nat → option time) : list time :=
  omap dose_time (seq 0 (Z.to_nat doses_per_day)).

(** A time of the day the 24-hour clock has. *)
Definition valid_time (t : time) : Prop := (t.1 < 24 ∧ t.2 < 60)%nat.

(** Not later in the day. *)
Definition chrono_le (a b : time) : Prop := (60 * a.1 + a.2 ≤ 60 * b.1 + b.2)%nat.

(** Every one of the [doses_per_day] time inputs has a value. *)
Definition times_filled (doses_per_day : Z) (dose_time : nat → option time) : Prop :=
  0 ≤ doses_per_day ∧
  Forall (λ i, is_Some (dose_time i)) (seq 0 (Z.to_nat doses_per_day)).

#[global] Instance times_filled_dec n dose_time : Decision (times_filled n dose_time).
Proof. unfold times_filled. apply _. Defined.

(** The form is filled in: a name, a dosage and every time. *)
Definition form_complete (med_name dosage : string) (doses_per_day : Z)
    (dose_time : nat → option time) : Prop :=
  med_name ≠ "" ∧ dosage ≠ "" ∧ times_filled doses_per_day dose_time.

(** A dose schedule: 08:00, 20:30 and 12:15, entered in that order. *)
Definition three_doses (i : nat) : option time :=
  match i with
  | 0%nat => Some (8, 0)%nat
  | 1%nat => Some (20, 30)%nat
  | 2%nat => Some (12, 15)%nat
  | _ => None
  end.

(** Not older, by the order of the timestamp strings. *)
Definition not_older (a b : SideEffect) : Prop :=
  string_le (se_timestamp b) (se_timestamp a).

(** An entry the history can show: a severity the labels cover and a
    timestamp that parses. *)
Definition displayable `{clock : Clock} (e : SideEffect) : Prop :=
  1 ≤ severity e ≤ 5 ∧ ∃ d, fromisoformat (se_timestamp e) = Ok d.

(** ** Sample data *)

(** A clock that knows three instants (microseconds since 0001-01-01). *)
Definition sample_clock : Clock :=
  {| isoformat := λ d,
       if decide (d = 63809371800000000) then "2023-01-15T09:30:00"
       else if decide (d = 63852825600000000) then "2024-06-01T08:00:00"
       else if decide (d = 63877204800000000) then "2025-03-10T12:00:00"
       else "";
     fromisoformat := λ s,
       if decide (s = "2023-01-15T09:30:00") then Ok 63809371800000000
       else if decide (s = "2024-06-01T08:00:00") then Ok 63852825600000000
       else if decide (s = "2025-03-10T12:00:00") then Ok 63877204800000000
       else Raise ValueError |}.

(** The three instants are written without offset; the same morning
    written with the offset of UTC is offset-aware. *)
Definition sample_zone : Tzinfo :=
  {| tzinfo := λ s,
       if decide (s = "2024-06-01T08:00:00+00:00") then Some 0 else None |}.

(** A clock that also reads that string. *)
Definition zoned_clock : Clock :=
  {| isoformat := isoformat (Clock := sample_clock);
     fromisoformat := λ s,
       if decide (s = "2024-06-01T08:00:00+00:00") then Ok 63852825600000000
       else fromisoformat (Clock := sample_clock) s |}.

Definition empty_tracker : MedicationTracker :=
  {| medications := ∅; logs := []; mood_logs := []; side_effects := [] |}.

Definition fresh_world : World := {| self := empty_tracker; data_file := None |}.

Definition aspirin : Medication :=
  {| name := "Aspirin"; dosage := "100mg"; frequency := "2 times daily";
     times := ["08:00"; "20:00"]; notes := "";
     created_date := "2023-01-15T09:30:00"; active := true;
     archived_date := None; archive_reason := None |}.

Definition headache (uid mid ts : string) (sev : Z) : SideEffect :=
  {| se_id := uid; med_id := mid; se_timestamp := ts; effect := "Headache";
     severity := sev; se_notes := "" |}.

(** One medication, stored under the id ["A"]. *)
Definition aspirin_world : World :=
  save_data (set_medications {[ "A" := aspirin ]} empty_tracker).

(** Two medications with the same name under the ids ["A"] and ["B"], and
    one side effect logged against each. *)
Definition two_aspirins : gmap string Medication :=
  {[ "A" := aspirin; "B" := aspirin ]}.

Definition two_effects : list SideEffect :=
  [ headache "e1" "A" "2024-06-01T08:00:00" 1;
    headache "e2" "B" "2024-06-01T08:00:00" 5 ].

(** Severities 1, 3 and 5 logged against ["A"], one entry against ["B"]
    (named differently) in between. *)
Definition ibuprofen : Medication :=
  {| name := "Ibuprofen"; dosage := "200mg"; frequency := "1 times daily";
     times := ["12:00"]; notes := "with food";
     created_date := "2024-06-01T08:00:00"; active := true;
     archived_date := None; archive_reason := None |}.

Definition mixed_meds : gmap string Medication :=
  {[ "A" := aspirin; "B" := ibuprofen ]}.

Definition mixed_effects : list SideEffect :=
  [ headache "e1" "A" "2024-06-01T08:00:00" 1;
    headache "e2" "B" "2023-01-15T09:30:00" 4;
    headache "e3" "A" "2024-06-01T08:00:00" 3;
    headache "e4" "A" "2025-03-10T12:00:00" 5 ].

Definition mixed_world : World :=
  save_data (set_side_effects mixed_effects (set_medications mixed_meds empty_tracker)).

(** ** Theorems *)

(** *** Persistence *)

Lemma load_data_document (v : value) :
  load_data (Some (Document v)) =
    match v with
    | VDict d =>
        Ok {| a_medications := default (VDict ∅) (d !! "medications");
              a_logs := default (VList []) (d !! "logs");
              a_mood_logs := default (VList []) (d !! "mood_logs");
              a_side_effects := default (VList []) (d !! "side_effects") |}
    | _ => Ok initialize_empty_data
    end.
Proof. by destruct v. Qed.

(** C8. [load_data] never raises.  Without a file, or with a file that
    cannot be read or parsed, the medications are the empty dict and the
    three lists are empty.  A parsed document is loaded key by key, each
    missing key defaulting to its empty collection; a parsed value that is
    not a JSON object has no keys, and all four collections are empty as
    well. *)
Theorem load_data_total (fs : option file) :
  ∃ a, load_data fs = Ok a ∧
    match fs with
    | Some (Document (VDict d)) =>
        a_medications a = default (VDict ∅) (d !! "medications") ∧
        a_logs a = default (VList []) (d !! "logs") ∧
        a_mood_logs a = default (VList []) (d !! "mood_logs") ∧
        a_side_effects a = default (VList []) (d !! "side_effects")
    | None | Some Unreadable | Some (Document _) =>
        a_medications a = VDict ∅ ∧
        a_logs a = VList [] ∧
        a_mood_logs a = VList [] ∧
        a_side_effects a = VList []
    end.
Proof.
  destruct fs as [[|v]|]; [by eexists| |by eexists].
  rewrite load_data_document. destruct v; by eexists.
Qed.

Lemma load_document (a : Attributes) : load_data (Some (Document (document a))) = Ok a.
Proof. rewrite load_data_document. by destruct a. Qed.

Lemma mapM_as_str (l : list string) : mapM as_str (VStr <$> l) = Some l.
Proof. induction l as [|s l IH]; [done|]. cbn. by rewrite IH. Qed.

Lemma value_medication_value (m : Medication) : value_medication (medication_value m) = Some m.
Proof.
  destruct m as [n ds fr ts nt cd ac [ad|] [ar|]];
    cbn -[mapM]; unfold field, opt_field; simplify_map_eq;
    rewrite mapM_as_str; reflexivity.
Qed.

Lemma value_side_effect_value (e : SideEffect) :
  value_side_effect (side_effect_value e) = Some e.
Proof. by destruct e. Qed.

Lemma value_mood_value (m : Mood) : value_mood (mood_value m) = Some m.
Proof. by destruct m. Qed.

Lemma mapM_inverse {A : Type} (f : A → value) (g : value → option A) (l : list A) :
  (∀ x, g (f x) = Some x) → mapM g (f <$> l) = Some l.
Proof.
  intros Hgf. induction l as [|x l IH]; [done|].
  cbn. by rewrite Hgf, IH.
Qed.

Lemma value_medications_value (meds : gmap string Medication) :
  value_medications (VDict (medication_value <$> meds)) = Some meds.
Proof.
  unfold value_medications. case_decide as Hall.
  - f_equal. apply map_eq. intros k.
    rewrite lookup_omap, lookup_fmap.
    destruct (meds !! k) as [m|]; [|done]. cbn. apply value_medication_value.
  - exfalso. apply Hall. intros k v. rewrite lookup_fmap.
    intros Hk. destruct (meds !! k) as [m|]; [|done].
    injection Hk as <-. rewrite value_medication_value. by eexists.
Qed.

Lemma tracker_of_attributes (t : MedicationTracker) : tracker_of (attributes t) = Some t.
Proof.
  destruct t as [meds lg ml se]. unfold tracker_of, attributes. cbn -[value_medications mapM].
  rewrite value_medications_value. cbn -[mapM].
  rewrite (mapM_inverse _ _ _ value_mood_value). cbn -[mapM].
  by rewrite (mapM_inverse _ _ _ value_side_effect_value).
Qed.

(** C5. Round trip: reloading the document [save_data] wrote gives back the
    attributes it was written from, whatever values they hold; for a tracker
    of the data model these are the same medications under the same ids, and
    the same lists in the same order. *)
Theorem save_load_roundtrip :
  (∀ a : Attributes, load_data (Some (Document (document a))) = Ok a) ∧
  (∀ t : MedicationTracker,
     load_data (data_file (save_data t)) = Ok (attributes t) ∧
     tracker_of (attributes t) = Some t).
Proof.
  split; [apply load_document|].
  intros t. split; [apply load_document | apply tracker_of_attributes].
Qed.

(** *** Dictionary access *)

Lemma contains_Some {V : Type} (d : gmap string V) (k : string) (v : V) :
  d !! k = Some v → contains d k = true.
Proof. intros Hk. apply bool_decide_eq_true. by eexists. Qed.

Lemma contains_None {V : Type} (d : gmap string V) (k : string) :
  d !! k = None → contains d k = false.
Proof. intros Hk. apply bool_decide_eq_false. rewrite Hk. by intros [? ?]. Qed.

Lemma assign_Some (k : string) (f : Medication → Medication)
    (meds : gmap string Medication) (m : Medication) :
  meds !! k = Some m → assign k f meds = Ok (<[k := f m]> meds).
Proof. intros Hk. unfold assign, getitem. by rewrite Hk. Qed.

(** A guarded deletion cannot raise: the record is there, and the key is
    deleted only when the record has it. *)
Lemma del_archived_date_guarded (k : string) (meds : gmap string Medication) (m : Medication) :
  meds !! k = Some m →
  del_if_present k (λ m, bool_decide (is_Some (archived_date m))) del_archived_date meds
  = Ok (<[k := set_archived_date None m]> meds).
Proof.
  intros Hk. unfold del_if_present, getitem. rewrite Hk. cbn.
  unfold del_archived_date. destruct (archived_date m) as [d|] eqn:Hd; cbn.
  - reflexivity.
  - f_equal. symmetry. apply insert_id. rewrite Hk. f_equal.
    destruct m; cbn in *; by subst.
Qed.

Lemma del_archive_reason_guarded (k : string) (meds : gmap string Medication) (m : Medication) :
  meds !! k = Some m →
  del_if_present k (λ m, bool_decide (is_Some (archive_reason m))) del_archive_reason meds
  = Ok (<[k := set_archive_reason None m]> meds).
Proof.
  intros Hk. unfold del_if_present, getitem. rewrite Hk. cbn.
  unfold del_archive_reason. destruct (archive_reason m) as [r|] eqn:Hr; cbn.
  - reflexivity.
  - f_equal. symmetry. apply insert_id. rewrite Hk. f_equal.
    destruct m; cbn in *; by subst.
Qed.

Lemma archive_medication_Some `{clock : Clock} (now : datetime) (k reason : string)
    (w : World) (m : Medication) :
  medications (self w) !! k = Some m →
  archive_medication now k reason w =
    Ok (save_data (set_medications
          (<[k := set_archive_reason (Some reason)
                    (set_archived_date (Some (isoformat now)) (set_active false m))]>
             (medications (self w))) (self w)), true).
Proof.
  intros Hk. unfold archive_medication. rewrite (contains_Some _ _ _ Hk).
  rewrite (assign_Some _ _ _ _ Hk). cbn.
  rewrite (assign_Some _ _ _ (set_active false m)) by apply lookup_insert_eq. cbn.
  rewrite (assign_Some _ _ _ (set_archived_date (Some (isoformat now)) (set_active false m)))
    by apply lookup_insert_eq.
  cbn. by rewrite !insert_insert_eq.
Qed.

Lemma reactivate_medication_Some (k : string) (w : World) (m : Medication) :
  medications (self w) !! k = Some m →
  reactivate_medication k w =
    Ok (save_data (set_medications
          (<[k := set_archive_reason None (set_archived_date None (set_active true m))]>
             (medications (self w))) (self w)), true).
Proof.
  intros Hk. unfold reactivate_medication. rewrite (contains_Some _ _ _ Hk).
  rewrite (assign_Some _ _ _ _ Hk). cbn.
  rewrite (del_archived_date_guarded _ _ (set_active true m)) by apply lookup_insert_eq. cbn.
  rewrite (del_archive_reason_guarded _ _ (set_archived_date None (set_active true m)))
    by apply lookup_insert_eq.
  cbn. by rewrite !insert_insert_eq.
Qed.

(** *** Operations *)

(** C4. [delete_medication] on an id that is not a key returns [False] and
    changes nothing, neither in memory nor on disk; on a key it returns
    [True], removes that key and no other, and leaves the side effects (and
    the other two lists) as they were. *)
Theorem delete_medication_spec (id : string) (w : World) :
  match medications (self w) !! id with
  | None => delete_medication id w = Ok (w, false)
  | Some _ =>
      ∃ w', delete_medication id w = Ok (w', true) ∧
        medications (self w') !! id = None ∧
        (∀ j, j ≠ id → medications (self w') !! j = medications (self w) !! j) ∧
        side_effects (self w') = side_effects (self w) ∧
        mood_logs (self w') = mood_logs (self w) ∧
        logs (self w') = logs (self w)
  end.
Proof.
  destruct (medications (self w) !! id) as [m|] eqn:Hid.
  - unfold delete_medication, delitem. rewrite (contains_Some _ _ _ Hid), Hid. cbn.
    eexists. split; [reflexivity|]. cbn. split; [apply lookup_delete_eq|].
    split; [|done]. intros j Hj. by apply lookup_delete_ne.
  - unfold delete_medication. by rewrite (contains_None _ _ Hid).
Qed.

(** The scenario of the specification: a medication is added, a side effect
    is logged against it, the medication is deleted; the entry stays, and
    its medication now resolves to the label for deleted ones. *)
Example add_log_delete_scenario :
  let '(w1, a) :=
    add_medication (clock := sample_clock) "A" 63809371800000000 "Aspirin" "100mg"
      "2 times daily" ["08:00"; "20:00"] "" fresh_world in
  let w2 := log_side_effect (clock := sample_clock) "e1" 63852825600000000 a "Headache" 2 "" w1 in
  a = "A" ∧
  med_id <$> side_effects (self w2) = [a] ∧
  ∃ w3, delete_medication a w2 = Ok (w3, true) ∧
    medications (self w3) = ∅ ∧
    side_effects (self w3) = side_effects (self w2) ∧
    med_name_of (medications (self w3)) a = "Unknown (Deleted)".
Proof.
  cbn. split; [done|]. split; [done|].
  eexists. split; [reflexivity|]. cbn.
  split; [|done]. by rewrite delete_insert_eq, delete_empty.
Qed.

(** C9. [reactivate_medication] on a key of the medications map returns
    [True] without raising, whether or not the record carries
    ['archived_date'] or ['archive_reason']; afterwards the record is active
    and has neither key, and its other fields are those it had. *)
Theorem reactivate_medication_never_raises (id : string) (w : World) (m : Medication) :
  medications (self w) !! id = Some m →
  ∃ w' m', reactivate_medication id w = Ok (w', true) ∧
    medications (self w') !! id = Some m' ∧
    active m' = true ∧ archived_date m' = None ∧ archive_reason m' = None ∧
    (name m', dosage m', frequency m', times m', notes m', created_date m')
    = (name m, dosage m, frequency m, times m, notes m, created_date m).
Proof.
  intros Hid. rewrite (reactivate_medication_Some _ _ _ Hid).
  do 2 eexists. split; [reflexivity|]. cbn. split; [apply lookup_insert_eq|]. done.
Qed.

(** A medication that was never archived is reactivated without error. *)
Lemma reactivate_medication_never_raises_witness :
  ∃ w' m', reactivate_medication "A" aspirin_world = Ok (w', true) ∧
    medications (self w') !! "A" = Some m' ∧
    active m' = true ∧ archived_date m' = None ∧ archive_reason m' = None ∧
    (name m', dosage m', frequency m', times m', notes m', created_date m')
    = (name aspirin, dosage aspirin, frequency aspirin, times aspirin, notes aspirin,
       created_date aspirin).
Proof.
  apply (reactivate_medication_never_raises "A" aspirin_world aspirin).
  reflexivity.
Defined.

(** C7. Archiving a stored medication returns [True]; the medication leaves
    the active filter and enters the archived one, stamped with the current
    time and the reason.  Reactivating it afterwards returns [True], removes
    both keys and moves it back from the archived filter to the active one. *)
Theorem archive_then_reactivate `{clock : Clock} (now : datetime) (id reason : string)
    (w : World) (m : Medication) :
  medications (self w) !! id = Some m →
  ∃ w1 m1, archive_medication now id reason w = Ok (w1, true) ∧
    active_meds (self w1) !! id = None ∧
    archived_meds (self w1) !! id = Some m1 ∧
    archived_date m1 = Some (isoformat now) ∧
    archive_reason m1 = Some reason ∧
    ∃ w2 m2, reactivate_medication id w1 = Ok (w2, true) ∧
      active_meds (self w2) !! id = Some m2 ∧
      archived_meds (self w2) !! id = None ∧
      archived_date m2 = None ∧
      archive_reason m2 = None.
Proof.
  intros Hid. rewrite (archive_medication_Some _ _ _ _ _ Hid).
  do 2 eexists. split; [reflexivity|]. unfold active_meds, archived_meds. cbn.
  split. { apply map_lookup_filter_None. right. intros m'.
           rewrite lookup_insert_eq. by intros [= <-]. }
  split. { apply map_lookup_filter_Some. split; [apply lookup_insert_eq|done]. }
  split; [done|]. split; [done|].
  erewrite reactivate_medication_Some by apply lookup_insert_eq.
  do 2 eexists. split; [reflexivity|]. cbn. rewrite insert_insert_eq.
  split. { apply map_lookup_filter_Some. split; [apply lookup_insert_eq|done]. }
  split; [|done].
  apply map_lookup_filter_None. right. intros m'.
  rewrite lookup_insert_eq. by intros [= <-].
Qed.

Lemma archive_then_reactivate_witness :
  ∃ w1 m1,
    archive_medication (clock := sample_clock) 63852825600000000 "A" "Course completed"
      aspirin_world = Ok (w1, true) ∧
    active_meds (self w1) !! "A" = None ∧
    archived_meds (self w1) !! "A" = Some m1 ∧
    archived_date m1 = Some "2024-06-01T08:00:00" ∧
    archive_reason m1 = Some "Course completed" ∧
    ∃ w2 m2, reactivate_medication "A" w1 = Ok (w2, true) ∧
      active_meds (self w2) !! "A" = Some m2 ∧
      archived_meds (self w2) !! "A" = None ∧
      archived_date m2 = None ∧
      archive_reason m2 = None.
Proof.
  apply (archive_then_reactivate (clock := sample_clock) 63852825600000000 "A"
           "Course completed" aspirin_world aspirin).
  reflexivity.
Defined.

(** C10. Frame of the two logging operations: [log_side_effect] puts one
    entry at the end of [side_effects] and leaves the medications,
    [mood_logs] and [logs] alone; [log_mood] puts one entry at the end of
    [mood_logs] and leaves the medications, [side_effects] and [logs]
    alone. *)
Theorem log_frame `{clock : Clock} (uid : string) (now : datetime) (w : World) :
  (∀ med_id0 effect0 severity0 notes0,
     let w' := log_side_effect uid now med_id0 effect0 severity0 notes0 w in
     side_effects (self w')
     = side_effects (self w) ++
         [{| se_id := uid; med_id := med_id0; se_timestamp := isoformat now;
             effect := effect0; severity := severity0; se_notes := notes0 |}] ∧
     length (side_effects (self w')) = S (length (side_effects (self w))) ∧
     medications (self w') = medications (self w) ∧
     mood_logs (self w') = mood_logs (self w) ∧
     logs (self w') = logs (self w)) ∧
  (∀ mood_score0 notes0,
     let w' := log_mood uid now mood_score0 notes0 w in
     mood_logs (self w')
     = mood_logs (self w) ++
         [{| mood_id := uid; mood_timestamp := isoformat now;
             mood_score := mood_score0; mood_notes := notes0 |}] ∧
     length (mood_logs (self w')) = S (length (mood_logs (self w))) ∧
     medications (self w') = medications (self w) ∧
     side_effects (self w') = side_effects (self w) ∧
     logs (self w') = logs (self w)).
Proof.
  split; intros; cbn.
  - split; [done|]. split; [|done]. rewrite length_app. cbn. lia.
  - split; [done|]. split; [|done]. rewrite length_app. cbn. lia.
Qed.

(** C2 (as the code has it). [log_side_effect] stores the severity it is
    given: the entry it appends carries that integer unchanged, so the entry
    is within 1..5 exactly when the argument is. *)
Theorem log_side_effect_keeps_severity `{clock : Clock} (uid : string) (now : datetime)
    (med_id effect : string) (severity0 : Z) (notes : string) (w : World) :
  ∃ e, side_effects (self (log_side_effect uid now med_id effect severity0 notes w))
       = side_effects (self w) ++ [e] ∧
    severity e = severity0 ∧
    ((1 ≤ severity e ≤ 5) ↔ (1 ≤ severity0 ≤ 5)).
Proof. eexists. split; [reflexivity|]. cbn. done. Qed.

(** C2 fails as stated: a severity of 7 is appended as it is. *)
Lemma log_side_effect_accepts_7 :
  ∃ e, last (side_effects (self (log_side_effect (clock := sample_clock) "e1"
                63852825600000000 "A" "Headache" 7 "" aspirin_world))) = Some e ∧
    ¬ (1 ≤ severity e ≤ 5).
Proof. eexists. split; [reflexivity|]. cbn. lia. Qed.

Lemma length_letters (n : nat) : String.length (letters n) = n.
Proof. induction n as [|n IH]; [done|]. cbn. by rewrite IH. Qed.

Lemma sample_uuid4_unique (issued : gset string) : sample_uuid4 issued ∉ issued.
Proof.
  unfold sample_uuid4.
  destruct (filter _ _) as [|u l] eqn:Hfilter.
  - intros Hin. apply elem_of_elements in Hin.
    assert (Hmax : ∀ (l : list string) s, s ∈ l →
              (String.length s ≤ foldr (λ s, Nat.max (String.length s)) 0 l)%nat).
    { clear. intros l s. induction 1 as [s l|s s' l _ IH]; cbn; lia. }
    apply Hmax in Hin. rewrite length_letters in Hin. lia.
  - assert (Hu : u ∈ filter (λ u, u ∉ issued)
                   ["7c9e6679-7425-40de-944b-e07fc1f90ae7";
                    "16fd2706-8baf-433b-82eb-8c7fada847da"]).
    { rewrite Hfilter. by left. }
    by apply list_elem_of_filter in Hu as [Hu _].
Qed.

Definition sample_uuid : Uuid :=
  {| uuid4 := sample_uuid4; uuid4_unique := sample_uuid4_unique |}.



Example add_medication_uuid4_sample :
  (add_medication_uuid4 (clock := sample_clock) (uuid := sample_uuid) {["A"]}
     63852825600000000 "Aspirin" "100mg" "2 times daily" ["08:00"; "20:00"] ""
     aspirin_world).1.2
  = "7c9e6679-7425-40de-944b-e07fc1f90ae7".
Proof. reflexivity. Qed.

(** *** The "Clean Old Data" button *)

Section CleanOldData.
Context `{clock : Clock} `{zone : Tzinfo}.
Variable cutoff : datetime.

Lemma comprehension_filter (l : list SideEffect) :
  Forall naive_stamp l →
  comprehension (λ se, ts ← fromisoformat (se_timestamp se);
                       ge_naive (tzinfo (se_timestamp se)) ts cutoff) l
  = Ok (filter (λ se, older_than cutoff se = false) l).
Proof.
  induction 1 as [|se l [[d Hd] Htz] _ IH]; [done|].
  assert (Hold : older_than cutoff se = (d <? cutoff)).
  { unfold older_than. by rewrite Hd. }
  rewrite filter_cons. cbn [comprehension]. rewrite Hd, Htz, IH, Hold. cbn.
  destruct (Z.leb_spec cutoff d), (Z.ltb_spec d cutoff); try lia; by case_decide.
Qed.

Lemma length_filter_older (l : list SideEffect) :
  (length l = length (filter (λ se, older_than cutoff se = true) l)
              + length (filter (λ se, older_than cutoff se = false) l))%nat.
Proof.
  induction l as [|se l IH]; [done|].
  rewrite !filter_cons. destruct (older_than cutoff se); repeat case_decide; try done; cbn; lia.
Qed.

End CleanOldData.

(** With a clock whose [fromisoformat] reads back what [isoformat] writes,
    as a naive [datetime], the timestamps [log_side_effect] stores are of
    that kind. *)
Lemma log_side_effect_parses `{clock : Clock} `{zone : Tzinfo} (uid : string)
    (now : datetime) (med_id0 effect0 : string) (severity0 : Z) (notes0 : string)
    (w : World) :
  (∀ d, fromisoformat (isoformat d) = Ok d ∧ tzinfo (isoformat d) = None) →
  Forall naive_stamp (side_effects (self w)) →
  Forall naive_stamp
    (side_effects (self (log_side_effect uid now med_id0 effect0 severity0 notes0 w))).
Proof.
  intros Hclock Hparse. cbn. apply Forall_app. split; [done|].
  constructor; [|constructor]. split; [exists now|]; apply Hclock.
Qed.

(** C3. When every stored timestamp is one the store writes (it parses, to a
    naive [datetime]), the button returns normally; the side effects that
    remain are the former ones whose timestamp is not strictly before
    [now - 365 days], each in its former relative position wherever the
    removed ones stood, and the number reported is the number of entries
    strictly before the cutoff. *)
Theorem clean_old_data_removes_older `{clock : Clock} `{zone : Tzinfo}
    (now : datetime) (w : World) :
  Forall naive_stamp (side_effects (self w)) →
  ∃ w',
    clean_old_data now w =
      Ok (w', Z.of_nat (length (filter (λ se, older_than (now - timedelta 365) se = true)
                                  (side_effects (self w))))) ∧
    side_effects (self w')
    = filter (λ se, older_than (now - timedelta 365) se = false) (side_effects (self w)) ∧
    (∀ se, se ∈ side_effects (self w') ↔
           se ∈ side_effects (self w) ∧
           ∃ d, fromisoformat (se_timestamp se) = Ok d ∧ ¬ (d < now - timedelta 365)) ∧
    side_effects (self w') `sublist_of` side_effects (self w).
Proof.
  intros Hparse. unfold clean_old_data.
  rewrite (comprehension_filter _ _ Hparse). cbn.
  eexists. split.
  { do 2 f_equal. rewrite (length_filter_older (now - timedelta 365) (side_effects (self w))) at 1.
    lia. }
  cbn. split; [reflexivity|]. split; [|apply sublist_filter].
  intros se. rewrite list_elem_of_filter. split.
  - intros [Hold Hin]. split; [done|].
    rewrite Forall_forall in Hparse. destruct (Hparse se Hin) as [[d Hd] _].
    exists d. split; [done|]. unfold older_than in Hold. rewrite Hd in Hold. lia.
  - intros [Hin (d & Hd & Hnew)]. split; [|done].
    unfold older_than. rewrite Hd. lia.
Qed.

(** Run on 2025-03-10 at noon: the entry of January 2023, second in the
    list, is the one removed. *)
Lemma clean_old_data_removes_older_witness :
  ∃ w',
    clean_old_data (clock := sample_clock) (zone := sample_zone) 63877204800000000
      mixed_world =
      Ok (w', Z.of_nat (length (filter
                (λ se, older_than (clock := sample_clock)
                         (63877204800000000 - timedelta 365) se = true)
                (side_effects (self mixed_world))))) ∧
    side_effects (self w')
    = filter (λ se, older_than (clock := sample_clock)
                      (63877204800000000 - timedelta 365) se = false)
        (side_effects (self mixed_world)) ∧
    (∀ se, se ∈ side_effects (self w') ↔
           se ∈ side_effects (self mixed_world) ∧
           ∃ d, fromisoformat (Clock := sample_clock) (se_timestamp se) = Ok d ∧
                ¬ (d < 63877204800000000 - timedelta 365)) ∧
    side_effects (self w') `sublist_of` side_effects (self mixed_world).
Proof.
  apply (clean_old_data_removes_older (clock := sample_clock) (zone := sample_zone)
           63877204800000000 mixed_world).
  repeat constructor; eexists; reflexivity.
Defined.

Example clean_old_data_sample :
  fst <$> clean_old_data (clock := sample_clock) (zone := sample_zone) 63877204800000000
            mixed_world
  = Ok (save_data (set_side_effects
          [ headache "e1" "A" "2024-06-01T08:00:00" 1;
            headache "e3" "A" "2024-06-01T08:00:00" 3;
            headache "e4" "A" "2025-03-10T12:00:00" 5 ] (self mixed_world)))
  ∧ snd <$> clean_old_data (clock := sample_clock) (zone := sample_zone) 63877204800000000
              mixed_world = Ok 1.
Proof. split; reflexivity. Qed.

(** A timestamp with an offset parses, and the comparison with the naive
    cutoff then raises: nothing is removed. *)
Example clean_old_data_offset_aware :
  fromisoformat (Clock := zoned_clock) "2024-06-01T08:00:00+00:00" = Ok 63852825600000000 ∧
  clean_old_data (clock := zoned_clock) (zone := sample_zone) 63877204800000000
    (save_data (set_side_effects [headache "e1" "A" "2024-06-01T08:00:00+00:00" 2]
                  empty_tracker))
  = Raise TypeError.
Proof. split; reflexivity. Qed.

(** *** Medication side-effect analysis *)

Section Analysis.
Variable meds : gmap string Medication.

(** What one round of the first loop does to the row [n]. *)
Lemma analyse_effect_lookup (acc : gmap string Analysis) (e : SideEffect) (n : string) :
  analyse_effect meds acc e !! n =
    if decide (shown_as meds n e) then
      let a := default {| total_effects := 0; avg_severity := 0%Q; severities := [] |}
                       (acc !! n) in
      Some {| total_effects := total_effects a + 1;
              avg_severity := avg_severity a;
              severities := severities a ++ [severity e] |}
    else acc !! n.
Proof.
  unfold analyse_effect, shown_as. case_decide as Hn.
  - subst n. rewrite lookup_alter_eq.
    destruct (acc !! med_name_of meds (med_id e)) as [a|] eqn:Hacc.
    + rewrite (contains_Some _ _ _ Hacc). by rewrite Hacc.
    + rewrite (contains_None _ _ Hacc). by rewrite lookup_insert_eq.
  - rewrite lookup_alter_ne by done.
    destruct (contains acc (med_name_of meds (med_id e))); [done|].
    by rewrite lookup_insert_ne.
Qed.

(** After the first loop the row [n] exists when some entry is shown as [n],
    and holds the number and the severities of these entries, in the order
    of the list. *)
Lemma first_loop_lookup (effects : list SideEffect) (n : string) :
  foldl (analyse_effect meds) ∅ effects !! n =
    let group := filter (shown_as meds n) effects in
    if decide (group = []) then None
    else Some {| total_effects := Z.of_nat (length group);
                 avg_severity := 0%Q;
                 severities := severity <$> group |}.
Proof.
  induction effects as [|e effects IH] using rev_ind; [done|].
  rewrite foldl_snoc, analyse_effect_lookup, IH, filter_app, filter_cons, filter_nil.
  cbn zeta. destruct (decide (shown_as meds n e)) as [Hn|Hn].
  - destruct (decide (filter (shown_as meds n) effects ++ [e] = []))
      as [[_ [=]]%app_eq_nil|_].
    f_equal. destruct (decide (filter (shown_as meds n) effects = [])) as [->|_]; cbn.
    + done.
    + rewrite length_app, fmap_app. cbn. f_equal. lia.
  - by rewrite app_nil_r.
Qed.

Lemma med_analysis_lookup (effects : list SideEffect) (n : string) :
  med_analysis meds effects !! n =
    let group := filter (shown_as meds n) effects in
    if decide (group = []) then None
    else Some {| total_effects := Z.of_nat (length group);
                 avg_severity := mean (severity <$> group);
                 severities := severity <$> group |}.
Proof.
  unfold med_analysis. rewrite lookup_fmap, first_loop_lookup.
  cbn zeta. by case_decide.
Qed.

End Analysis.

(** C1 (as the code has it). The analysis groups the side effects by the
    name their medication id resolves to: the stored medication's name, or
    ["Unknown (Deleted)"] for an id that is not a key.  A name has a row
    exactly when some entry resolves to it; the row reports the number of
    these entries and the mean of their severities (the division is never by
    zero).  In particular, when the entries resolving to a name have
    severities 1, 3 and 5, its row reports a total of 3 and an average of
    3. *)
Theorem med_analysis_groups_by_name (meds : gmap string Medication)
    (effects : list SideEffect) (n : string) :
  let group := filter (shown_as meds n) effects in
  (group = [] → med_analysis meds effects !! n = None) ∧
  (group ≠ [] →
     ∃ a, med_analysis meds effects !! n = Some a ∧
       total_effects a = Z.of_nat (length group) ∧
       severities a = severity <$> group ∧
       length (severities a) ≠ 0%nat ∧
       avg_severity a = mean (severity <$> group)) ∧
  (severity <$> group = [1; 3; 5] →
     ∃ a, med_analysis meds effects !! n = Some a ∧
       total_effects a = 3 ∧ (avg_severity a == 3)%Q).
Proof.
  cbn zeta. pose proof (med_analysis_lookup meds effects n) as Hrow. cbn zeta in Hrow.
  split; [|split].
  - intros Hnil. by rewrite Hrow, decide_True.
  - intros Hne. rewrite Hrow, decide_False by done.
    eexists. split; [reflexivity|]. cbn. split; [done|]. split; [done|]. split; [|done].
    rewrite length_fmap. by destruct (filter _ effects).
  - intros Hsev. rewrite Hrow, decide_False by (intros Hnil; by rewrite Hnil in Hsev).
    eexists. split; [reflexivity|]. cbn. rewrite Hsev.
    split; [|reflexivity].
    rewrite <- (length_fmap severity), Hsev. reflexivity.
Qed.

(** Severities 1, 3, 5 logged against ["A"] (Aspirin), with an entry of
    another medication in between. *)
Lemma med_analysis_groups_by_name_witness :
  ∃ a, med_analysis mixed_meds mixed_effects !! "Aspirin" = Some a ∧
    total_effects a = 3 ∧ (avg_severity a == 3)%Q.
Proof.
  apply (med_analysis_groups_by_name mixed_meds mixed_effects "Aspirin").
  reflexivity.
Defined.

(** C1 fails as stated: two medications with the same name share one row,
    which counts the entries of both ids. *)
Lemma med_analysis_merges_equal_names :
  ¬ aggregates_per_medication_id two_aspirins two_effects.
Proof.
  intros Hclaim.
  destruct (Hclaim "A" aspirin eq_refl) as (a & Hrow & Htotal & _); [done|].
  vm_compute in Hrow. injection Hrow as <-. vm_compute in Htotal. discriminate.
Qed.

Example med_analysis_two_aspirins :
  med_analysis two_aspirins two_effects
  = {[ "Aspirin" := {| total_effects := 2; avg_severity := mean [1; 5];
                       severities := [1; 5] |} ]}.
Proof.
  apply map_eq. intros n. rewrite med_analysis_lookup. cbn zeta.
  destruct (decide (n = "Aspirin")) as [->|Hn]; [reflexivity|].
  rewrite lookup_singleton_ne by done.
  rewrite decide_True; [done|].
  unfold two_effects. rewrite !filter_cons, filter_nil.
  rewrite !decide_False; [done|..]; unfold shown_as; vm_compute; congruence.
Qed.

(** ** Further properties of the store *)

Lemma set_medications_id (t : MedicationTracker) : set_medications (medications t) t = t.
Proof. by destruct t. Qed.

Lemma delete_medication_Some (k : string) (w : World) (m : Medication) :
  medications (self w) !! k = Some m →
  delete_medication k w
  = Ok (save_data (set_medications (delete k (medications (self w))) (self w)), true).
Proof.
  intros Hk. unfold delete_medication, delitem.
  by rewrite (contains_Some _ _ _ Hk), Hk.
Qed.

Lemma delete_medication_None (k : string) (w : World) :
  medications (self w) !! k = None → delete_medication k w = Ok (w, false).
Proof. intros Hk. unfold delete_medication. by rewrite (contains_None _ _ Hk). Qed.

Lemma archive_medication_None `{clock : Clock} (now : datetime) (k reason : string) (w : World) :
  medications (self w) !! k = None → archive_medication now k reason w = Ok (w, false).
Proof. intros Hk. unfold archive_medication. by rewrite (contains_None _ _ Hk). Qed.

Lemma reactivate_medication_None (k : string) (w : World) :
  medications (self w) !! k = None → reactivate_medication k w = Ok (w, false).
Proof. intros Hk. unfold reactivate_medication. by rewrite (contains_None _ _ Hk). Qed.

Lemma load_saved (t : MedicationTracker) :
  load_data (data_file (save_data t)) = Ok (attributes t).
Proof. apply load_document. Qed.

(** X1. On an id that is not a key, [archive_medication] and
    [reactivate_medication] return [False] and touch neither the tracker nor
    the file. *)
Theorem archive_reactivate_unknown_id `{clock : Clock} (now : datetime)
    (id reason : string) (w : World) :
  medications (self w) !! id = None →
  archive_medication now id reason w = Ok (w, false) ∧
  reactivate_medication id w = Ok (w, false).
Proof.
  intros Hid. split; [by apply archive_medication_None | by apply reactivate_medication_None].
Qed.

Lemma archive_reactivate_unknown_id_witness :
  archive_medication (clock := sample_clock) 63852825600000000 "B" "Other" aspirin_world
  = Ok (aspirin_world, false) ∧
  reactivate_medication "B" aspirin_world = Ok (aspirin_world, false).
Proof.
  apply (archive_reactivate_unknown_id (clock := sample_clock)). reflexivity.
Defined.

(** X2. Frame of [archive_medication] on a stored medication: the record
    keeps its name, dosage, frequency, times, notes and creation date, the
    set of ids and every other record are unchanged, so are the three lists,
    and the file written reloads to the new state. *)
Theorem archive_medication_frame `{clock : Clock} (now : datetime) (id reason : string)
    (w : World) (m : Medication) :
  medications (self w) !! id = Some m →
  ∃ w' m', archive_medication now id reason w = Ok (w', true) ∧
    medications (self w') !! id = Some m' ∧
    active m' = false ∧
    (name m', dosage m', frequency m', times m', notes m', created_date m')
    = (name m, dosage m, frequency m, times m, notes m, created_date m) ∧
    dom (medications (self w')) = dom (medications (self w)) ∧
    (∀ j, j ≠ id → medications (self w') !! j = medications (self w) !! j) ∧
    side_effects (self w') = side_effects (self w) ∧
    mood_logs (self w') = mood_logs (self w) ∧
    logs (self w') = logs (self w) ∧
    load_data (data_file w') = Ok (attributes (self w')).
Proof.
  intros Hid. rewrite (archive_medication_Some _ _ _ _ _ Hid).
  do 2 eexists. split; [reflexivity|].
  split. { apply lookup_insert_eq. }
  do 2 (split; [reflexivity|]).
  split. { cbn. apply dom_insert_lookup_L. by exists m. }
  split. { intros j Hj. by apply lookup_insert_ne. }
  do 3 (split; [reflexivity|]). apply load_saved.
Qed.

Lemma archive_medication_frame_witness :
  ∃ w' m',
    archive_medication (clock := sample_clock) 63852825600000000 "A" "Side effects"
      aspirin_world = Ok (w', true) ∧
    medications (self w') !! "A" = Some m' ∧
    active m' = false ∧
    (name m', dosage m', frequency m', times m', notes m', created_date m')
    = (name aspirin, dosage aspirin, frequency aspirin, times aspirin, notes aspirin,
       created_date aspirin) ∧
    dom (medications (self w')) = dom (medications (self aspirin_world)) ∧
    (∀ j, j ≠ "A" → medications (self w') !! j = medications (self aspirin_world) !! j) ∧
    side_effects (self w') = side_effects (self aspirin_world) ∧
    mood_logs (self w') = mood_logs (self aspirin_world) ∧
    logs (self w') = logs (self aspirin_world) ∧
    load_data (data_file w') = Ok (attributes (self w')).
Proof.
  apply (archive_medication_frame (clock := sample_clock) 63852825600000000 "A"
           "Side effects" aspirin_world aspirin).
  reflexivity.
Defined.

(** X3. Archiving again only re-stamps: archiving at [now2] for [reason2] a
    medication already archived at [now1] for [reason1] gives the world that
    archiving it once at [now2] for [reason2] gives. *)
Theorem archive_medication_again `{clock : Clock} (now1 now2 : datetime)
    (id reason1 reason2 : string) (w : World) (m : Medication) :
  medications (self w) !! id = Some m →
  ∃ w1, archive_medication now1 id reason1 w = Ok (w1, true) ∧
    archive_medication now2 id reason2 w1 = archive_medication now2 id reason2 w.
Proof.
  intros Hid. rewrite (archive_medication_Some _ _ _ _ _ Hid).
  eexists. split; [reflexivity|].
  erewrite archive_medication_Some by apply lookup_insert_eq.
  rewrite (archive_medication_Some _ _ _ _ _ Hid).
  cbn. by rewrite insert_insert_eq.
Qed.

Lemma archive_medication_again_witness :
  ∃ w1,
    archive_medication (clock := sample_clock) 63809371800000000 "A" "Other" aspirin_world
    = Ok (w1, true) ∧
    archive_medication (clock := sample_clock) 63852825600000000 "A" "Side effects" w1
    = archive_medication (clock := sample_clock) 63852825600000000 "A" "Side effects"
        aspirin_world.
Proof.
  apply (archive_medication_again (clock := sample_clock) 63809371800000000
           63852825600000000 "A" "Other" "Side effects" aspirin_world aspirin).
  reflexivity.
Defined.

(** X4. Reactivation undoes archiving: after [archive_medication],
    [reactivate_medication] gives what it gives without the archiving; for a
    medication that was active and carried no archive key, the tracker is
    back to what it was before the two calls. *)
Theorem reactivate_undoes_archive `{clock : Clock} (now : datetime) (id reason : string)
    (w : World) (m : Medication) :
  medications (self w) !! id = Some m →
  ∃ w1, archive_medication now id reason w = Ok (w1, true) ∧
    reactivate_medication id w1 = reactivate_medication id w ∧
    (active m = true → archived_date m = None → archive_reason m = None →
     ∃ w2, reactivate_medication id w1 = Ok (w2, true) ∧ self w2 = self w).
Proof.
  intros Hid. rewrite (archive_medication_Some _ _ _ _ _ Hid).
  eexists. split; [reflexivity|].
  erewrite reactivate_medication_Some by apply lookup_insert_eq.
  rewrite (reactivate_medication_Some _ _ _ Hid). cbn. rewrite insert_insert_eq.
  split; [reflexivity|].
  intros Hactive Hdate Hreason. eexists. split; [reflexivity|].
  destruct w as [[meds lg ml se] fl]. cbn in *. unfold set_medications. cbn. f_equal.
  apply insert_id. rewrite Hid. f_equal. destruct m; cbn in *; by subst.
Qed.

Lemma reactivate_undoes_archive_witness :
  ∃ w1,
    archive_medication (clock := sample_clock) 63852825600000000 "A" "Other" aspirin_world
    = Ok (w1, true) ∧
    reactivate_medication "A" w1 = reactivate_medication "A" aspirin_world ∧
    (active aspirin = true → archived_date aspirin = None → archive_reason aspirin = None →
     ∃ w2, reactivate_medication "A" w1 = Ok (w2, true) ∧ self w2 = self aspirin_world).
Proof.
  apply (reactivate_undoes_archive (clock := sample_clock) 63852825600000000 "A" "Other"
           aspirin_world aspirin).
  reflexivity.
Defined.

(** X5. Deleting a medication just added under an unused id gives back the
    tracker as it was before the addition. *)
Theorem delete_undoes_add `{clock : Clock} (uid : string) (now : datetime)
    (name0 dosage0 frequency0 : string) (times0 : list string) (notes0 : string)
    (w : World) :
  medications (self w) !! uid = None →
  ∃ w', delete_medication uid
          (add_medication uid now name0 dosage0 frequency0 times0 notes0 w).1
        = Ok (w', true) ∧
    self w' = self w.
Proof.
  intros Hnew. erewrite delete_medication_Some by apply lookup_insert_eq.
  eexists. split; [reflexivity|].
  destruct w as [[meds lg ml se] fl]. cbn in *. unfold set_medications. cbn. f_equal.
  by apply delete_insert_id.
Qed.

Lemma delete_undoes_add_witness :
  ∃ w', delete_medication "B"
          (add_medication (clock := sample_clock) "B" 63852825600000000 "Ibuprofen" "200mg"
             "1 times daily" ["12:00"] "" aspirin_world).1
        = Ok (w', true) ∧
    self w' = self aspirin_world.
Proof.
  apply (delete_undoes_add (clock := sample_clock)). reflexivity.
Defined.

(** ** Properties of the page handlers *)

Lemma filter_other_med (id j : string) (l : list SideEffect) :
  j ≠ id →
  filter (λ se, med_id se = j) (filter (λ se, med_id se ≠ id) l)
  = filter (λ se, med_id se = j) l.
Proof.
  intros Hj. induction l as [|se l IH]; [done|].
  rewrite !filter_cons. destruct (decide (med_id se = j)) as [Hse|Hse].
  - rewrite decide_True by congruence. rewrite filter_cons, decide_True by done.
    by rewrite IH.
  - case_decide; [|done]. by rewrite filter_cons, decide_False.
Qed.

Lemma filter_same_med (id : string) (l : list SideEffect) :
  filter (λ se, med_id se = id) (filter (λ se, med_id se ≠ id) l) = [].
Proof.
  induction l as [|se l IH]; [done|].
  rewrite filter_cons. case_decide; [|done]. by rewrite filter_cons, decide_False.
Qed.

(** X7. "Confirm Delete" on a stored medication removes it together with
    every side effect logged against its id; the side effects of every other
    id stay as they were, in order; the file written holds the state after
    both removals. *)
Theorem confirm_delete_cascades (id : string) (w : World) (m : Medication) :
  medications (self w) !! id = Some m →
  ∃ w', confirm_delete id w = Ok w' ∧
    medications (self w') = delete id (medications (self w)) ∧
    med_side_effects id (self w') = [] ∧
    (∀ j, j ≠ id → med_side_effects j (self w') = med_side_effects j (self w)) ∧
    side_effects (self w') `sublist_of` side_effects (self w) ∧
    mood_logs (self w') = mood_logs (self w) ∧
    logs (self w') = logs (self w) ∧
    load_data (data_file w') = Ok (attributes (self w')).
Proof.
  intros Hid. unfold confirm_delete.
  erewrite delete_medication_Some by exact Hid.
  eexists. split; [reflexivity|]. split; [reflexivity|].
  split. { apply filter_same_med. }
  split. { intros j Hj. by apply filter_other_med. }
  split. { apply sublist_filter. }
  do 2 (split; [reflexivity|]). apply load_saved.
Qed.

Lemma confirm_delete_cascades_witness :
  ∃ w', confirm_delete "A" mixed_world = Ok w' ∧
    medications (self w') = delete "A" (medications (self mixed_world)) ∧
    med_side_effects "A" (self w') = [] ∧
    (∀ j, j ≠ "A" → med_side_effects j (self w') = med_side_effects j (self mixed_world)) ∧
    side_effects (self w') `sublist_of` side_effects (self mixed_world) ∧
    mood_logs (self w') = mood_logs (self mixed_world) ∧
    logs (self w') = logs (self mixed_world) ∧
    load_data (data_file w') = Ok (attributes (self w')).
Proof.
  apply (confirm_delete_cascades "A" mixed_world aspirin). reflexivity.
Defined.

Section CleanAgain.
Context `{clock : Clock} `{zone : Tzinfo}.

Lemma clean_old_data_Ok (now : datetime) (w : World) :
  Forall naive_stamp (side_effects (self w)) →
  clean_old_data now w =
    let kept := filter (λ se, older_than (now - timedelta 365) se = false)
                  (side_effects (self w)) in
    Ok (save_data (set_side_effects kept (self w)),
        Z.of_nat (length (side_effects (self w))) - Z.of_nat (length kept)).
Proof.
  intros Hparse. unfold clean_old_data. by rewrite (comprehension_filter _ _ Hparse).
Qed.

Lemma comprehension_raises (cutoff : datetime) (l : list SideEffect) (kept : list SideEffect) :
  comprehension (λ se, ts ← fromisoformat (se_timestamp se);
                       ge_naive (tzinfo (se_timestamp se)) ts cutoff) l = Ok kept →
  Forall naive_stamp l.
Proof.
  revert kept. induction l as [|se l IH]; intros kept Hok; [constructor|].
  cbn in Hok. destruct (fromisoformat (se_timestamp se)) as [d|e] eqn:Hd; [|done].
  cbn in Hok. destruct (tzinfo (se_timestamp se)) as [offset|] eqn:Htz; [done|].
  cbn in Hok.
  destruct (comprehension _ l) as [rest|e] eqn:Hrest; [|done].
  constructor; [|by eapply IH].
  split; [|done]. exists d. exact Hd.
Qed.

Lemma filter_newer_twice (c c' : datetime) (l : list SideEffect) :
  c ≤ c' →
  filter (λ se, older_than c' se = false) (filter (λ se, older_than c se = false) l)
  = filter (λ se, older_than c' se = false) l.
Proof.
  intros Hc. induction l as [|se l IH]; [done|].
  rewrite !filter_cons. destruct (decide (older_than c' se = false)) as [Hnew|Hold].
  - assert (older_than c se = false) as Hnewer.
    { unfold older_than in *. destruct (fromisoformat (se_timestamp se)); [lia|done]. }
    rewrite decide_True by done. rewrite filter_cons, decide_True by done. by rewrite IH.
  - case_decide; [|done]. by rewrite filter_cons, decide_False.
Qed.

Lemma clean_old_data_parses (now : datetime) (w : World) (r : World * Z) :
  clean_old_data now w = Ok r → Forall naive_stamp (side_effects (self w)).
Proof.
  intros Hr. unfold clean_old_data in Hr.
  destruct (comprehension _ (side_effects (self w))) as [kept|e] eqn:Hkept; [|done].
  by eapply comprehension_raises.
Qed.

End CleanAgain.

(** X8. "Clean Old Data" returns normally exactly when every stored
    timestamp parses to a naive [datetime]; one timestamp that does not
    parse, or that parses to an offset-aware [datetime], makes the handler
    raise, and nothing is removed or written. *)
Theorem clean_old_data_returns_iff `{clock : Clock} `{zone : Tzinfo}
    (now : datetime) (w : World) :
  (∃ r, clean_old_data now w = Ok r) ↔
  Forall (λ se, (∃ d, fromisoformat (se_timestamp se) = Ok d) ∧
                tzinfo (se_timestamp se) = None) (side_effects (self w)).
Proof.
  split.
  - intros [r Hr]. by eapply clean_old_data_parses.
  - intros Hparse. rewrite (clean_old_data_Ok _ _ Hparse). by eexists.
Qed.

(** X9. Frame of "Clean Old Data": medications, mood logs and [logs] are
    untouched, the number reported is between 0 and the number of entries
    there were and is the number by which the list got shorter, and the file
    written reloads to the new state. *)
Theorem clean_old_data_frame `{clock : Clock} `{zone : Tzinfo}
    (now : datetime) (w w' : World) (n : Z) :
  clean_old_data now w = Ok (w', n) →
  medications (self w') = medications (self w) ∧
  mood_logs (self w') = mood_logs (self w) ∧
  logs (self w') = logs (self w) ∧
  0 ≤ n ≤ Z.of_nat (length (side_effects (self w))) ∧
  Z.of_nat (length (side_effects (self w'))) = Z.of_nat (length (side_effects (self w))) - n ∧
  load_data (data_file w') = Ok (attributes (self w')).
Proof.
  intros Hclean.
  assert (Hparse : Forall naive_stamp (side_effects (self w))).
  { by eapply clean_old_data_parses. }
  rewrite (clean_old_data_Ok _ _ Hparse) in Hclean. cbn zeta in Hclean.
  injection Hclean as <- <-.
  do 3 (split; [reflexivity|]).
  pose proof (length_filter (λ se, older_than (now - timedelta 365) se = false)
                (side_effects (self w))) as Hlen.
  split; [cbn; lia|]. split; [cbn; lia|]. apply load_saved.
Qed.

Lemma clean_old_data_frame_witness :
  let w' := save_data (set_side_effects
              [ headache "e1" "A" "2024-06-01T08:00:00" 1;
                headache "e3" "A" "2024-06-01T08:00:00" 3;
                headache "e4" "A" "2025-03-10T12:00:00" 5 ] (self mixed_world)) in
  medications (self w') = medications (self mixed_world) ∧
  mood_logs (self w') = mood_logs (self mixed_world) ∧
  logs (self w') = logs (self mixed_world) ∧
  0 ≤ 1 ≤ Z.of_nat (length (side_effects (self mixed_world))) ∧
  Z.of_nat (length (side_effects (self w')))
  = Z.of_nat (length (side_effects (self mixed_world))) - 1 ∧
  load_data (data_file w') = Ok (attributes (self w')).
Proof.
  apply (clean_old_data_frame (clock := sample_clock) (zone := sample_zone)
           63877204800000000 mixed_world).
  reflexivity.
Defined.

(** X10. With timestamps the store writes (each parses, to a naive
    [datetime]), cleaning twice is cleaning once at the later time: after a
    run at [now], a run at [now' >= now] leaves the world a single run at
    [now'] leaves, and the two numbers reported add up to the number the
    single run reports; and a second run at the same time [now] removes
    nothing and leaves the world of the first run. *)
Theorem clean_old_data_twice `{clock : Clock} `{zone : Tzinfo}
    (now now' : datetime) (w : World) :
  Forall naive_stamp (side_effects (self w)) →
  now ≤ now' →
  ∃ w1 n1 w2 n2,
    clean_old_data now w = Ok (w1, n1) ∧
    clean_old_data now' w1 = Ok (w2, n2) ∧
    clean_old_data now' w = Ok (w2, n1 + n2) ∧
    clean_old_data now w1 = Ok (w1, 0).
Proof.
  intros Hparse Hnow.
  rewrite !(clean_old_data_Ok _ _ Hparse). cbn zeta.
  set (kept := filter (λ se, older_than (now - timedelta 365) se = false)
                 (side_effects (self w))).
  assert (Hkept : Forall naive_stamp kept).
  { rewrite Forall_forall in Hparse. apply Forall_forall.
    intros se [_ Hin]%list_elem_of_filter. by apply Hparse. }
  assert (Hfil : filter (λ se, older_than (now' - timedelta 365) se = false) kept
                 = filter (λ se, older_than (now' - timedelta 365) se = false)
                     (side_effects (self w))).
  { apply filter_newer_twice. unfold timedelta. lia. }
  assert (Hsame : filter (λ se, older_than (now - timedelta 365) se = false) kept = kept).
  { unfold kept. by apply filter_newer_twice. }
  do 4 eexists. split; [reflexivity|].
  rewrite !clean_old_data_Ok by exact Hkept. cbn zeta.
  change (side_effects (self (save_data (set_side_effects kept (self w))))) with kept.
  rewrite Hfil, Hsame. split; [reflexivity|]. split.
  - f_equal. apply pair_equal_spec. split; [reflexivity|]. fold kept. lia.
  - f_equal. apply pair_equal_spec. split; [reflexivity|lia].
Qed.

(** A run on 2024-06-01, then one on 2025-03-10. *)
Lemma clean_old_data_twice_witness :
  ∃ w1 n1 w2 n2,
    clean_old_data (clock := sample_clock) (zone := sample_zone) 63852825600000000
      mixed_world = Ok (w1, n1) ∧
    clean_old_data (clock := sample_clock) (zone := sample_zone) 63877204800000000 w1
    = Ok (w2, n2) ∧
    clean_old_data (clock := sample_clock) (zone := sample_zone) 63877204800000000
      mixed_world = Ok (w2, n1 + n2) ∧
    clean_old_data (clock := sample_clock) (zone := sample_zone) 63852825600000000 w1
    = Ok (w1, 0).
Proof.
  apply (clean_old_data_twice (clock := sample_clock) (zone := sample_zone)
           63852825600000000 63877204800000000 mixed_world).
  - repeat constructor; eexists; reflexivity.
  - lia.
Defined.

(** *** Dashboard metrics *)

Lemma values_insert (meds : gmap string Medication) (k : string) (m m' : Medication) :
  meds !! k = Some m →
  values (<[k := m']> meds) ≡ₚ m' :: values (delete k meds) ∧
  values meds ≡ₚ m :: values (delete k meds).
Proof.
  intros Hk. unfold values. split.
  - rewrite <- insert_delete_eq.
    rewrite map_to_list_insert by apply lookup_delete_eq. done.
  - by rewrite <- (map_to_list_delete _ _ _ Hk).
Qed.

Lemma length_filter_split {A : Type} (P : A → bool) (l : list A) :
  (length (filter (λ x, P x = true) l) + length (filter (λ x, negb (P x) = true) l)
   = length l)%nat.
Proof.
  induction l as [|x l IH]; [done|].
  rewrite !filter_cons. destruct (P x).
  - rewrite decide_True, decide_False by done. cbn. lia.
  - rewrite decide_False, decide_True by done. cbn. lia.
Qed.

(** X11. The two medication counters of the dashboard split the map: every
    stored medication is counted once, as active or as archived. *)
Theorem active_archived_partition (t : MedicationTracker) :
  (active_count t + archived_count t = size (medications t))%nat.
Proof.
  unfold active_count, archived_count. rewrite length_filter_split.
  unfold values. by rewrite length_fmap, length_map_to_list.
Qed.

(** X12. Archiving an active medication moves one unit from "Active
    Medications" to "Archived Meds"; reactivating an archived one moves it
    back. *)
Theorem archive_moves_one_count `{clock : Clock} (now : datetime) (id reason : string)
    (w : World) (m : Medication) :
  medications (self w) !! id = Some m →
  (active m = true →
   ∃ w', archive_medication now id reason w = Ok (w', true) ∧
     S (active_count (self w')) = active_count (self w) ∧
     archived_count (self w') = S (archived_count (self w))) ∧
  (active m = false →
   ∃ w', reactivate_medication id w = Ok (w', true) ∧
     active_count (self w') = S (active_count (self w)) ∧
     S (archived_count (self w')) = archived_count (self w)).
Proof.
  intros Hid. split; intros Hactive.
  - rewrite (archive_medication_Some _ _ _ _ _ Hid). eexists. split; [reflexivity|].
    unfold active_count, archived_count. cbn [self save_data medications set_medications].
    destruct (values_insert _ _ _
      (set_archive_reason (Some reason)
         (set_archived_date (Some (isoformat now)) (set_active false m))) Hid) as [-> ->].
    rewrite !filter_cons. cbn. rewrite Hactive. cbn. done.
  - rewrite (reactivate_medication_Some _ _ _ Hid). eexists. split; [reflexivity|].
    unfold active_count, archived_count. cbn [self save_data medications set_medications].
    destruct (values_insert _ _ _
      (set_archive_reason None (set_archived_date None (set_active true m))) Hid) as [-> ->].
    rewrite !filter_cons. cbn. rewrite Hactive. cbn. done.
Qed.

Lemma archive_moves_one_count_witness :
  (active aspirin = true →
   ∃ w', archive_medication (clock := sample_clock) 63852825600000000 "A" "Other"
           aspirin_world = Ok (w', true) ∧
     S (active_count (self w')) = active_count (self aspirin_world) ∧
     archived_count (self w') = S (archived_count (self aspirin_world))) ∧
  (active aspirin = false →
   ∃ w', reactivate_medication "A" aspirin_world = Ok (w', true) ∧
     active_count (self w') = S (active_count (self aspirin_world)) ∧
     S (archived_count (self w')) = archived_count (self aspirin_world)).
Proof.
  apply (archive_moves_one_count (clock := sample_clock) 63852825600000000 "A" "Other"
           aspirin_world aspirin).
  reflexivity.
Defined.

(** *** The "Add Medication" form *)

Lemma truthy_true (s : string) : truthy s = true ↔ s ≠ "".
Proof. unfold truthy. apply bool_decide_eq_true. Qed.

Lemma truthy_false (s : string) : truthy s = false ↔ s = "".
Proof.
  unfold truthy. rewrite bool_decide_eq_false. destruct (decide (s = "")); naive_solver.
Qed.

Lemma collect_times_entered (n : Z) (dose_time : nat → option time) :
  collect_times n dose_time = strftime_HM <$> entered_times n dose_time.
Proof.
  unfold collect_times, entered_times.
  induction (seq 0 (Z.to_nat n)) as [|i l IH]; [done|].
  cbn. destruct (dose_time i); cbn; by rewrite IH.
Qed.

Lemma forallb_truthy_times (l : list time) : forallb truthy (strftime_HM <$> l) = true.
Proof. induction l as [|t l IH]; [done|]. cbn. by rewrite IH. Qed.

Lemma length_omap_all {A B : Type} (f : A → option B) (l : list A) :
  (length (omap f l) ≤ length l)%nat ∧
  (length (omap f l) = length l ↔ Forall (λ x, is_Some (f x)) l).
Proof.
  induction l as [|x l [IHle IHeq]]; [by split|].
  cbn. destruct (f x) as [y|] eqn:Hx; cbn.
  - split; [lia|]. split.
    + intros Hlen. constructor; [by exists y|]. apply IHeq. lia.
    + intros Hall. inversion Hall; subst. f_equal. by apply IHeq.
  - split; [lia|]. split; [lia|].
    intros Hall. inversion Hall as [|? ? [y Hy]]; subst. congruence.
Qed.

Lemma times_complete (n : Z) (dose_time : nat → option time) :
  Z.of_nat (length (collect_times n dose_time)) = n ↔ times_filled n dose_time.
Proof.
  unfold collect_times, times_filled.
  destruct (length_omap_all (λ i, strftime_HM <$> dose_time i) (seq 0 (Z.to_nat n)))
    as [Hle Heq].
  rewrite length_seq in Hle, Heq.
  assert (Hsome : Forall (λ i, is_Some (strftime_HM <$> dose_time i)) (seq 0 (Z.to_nat n))
                  ↔ Forall (λ i, is_Some (dose_time i)) (seq 0 (Z.to_nat n))).
  { split; intros Hall; (eapply Forall_impl; [exact Hall|]);
      intros i; cbn; by rewrite fmap_is_Some. }
  rewrite <- Hsome, <- Heq. lia.
Qed.

Lemma form_condition (med_name dosage : string) (n : Z) (dose_time : nat → option time) :
  truthy med_name && truthy dosage
  && bool_decide (Z.of_nat (length (collect_times n dose_time)) = n)
  && forallb truthy (collect_times n dose_time) = true
  ↔ form_complete med_name dosage n dose_time.
Proof.
  unfold form_complete.
  rewrite !andb_true_iff, !truthy_true, bool_decide_eq_true, times_complete.
  rewrite collect_times_entered, forallb_truthy_times.
  split; [intros [[[? ?] ?] _] | intros (? & ? & ?)]; auto.
Qed.

(** X13. The form adds a medication exactly when a name, a dosage and every
    one of the [doses_per_day] times are filled in; the medication then has
    the name, dosage and notes entered, and is active.  Otherwise nothing is
    stored or written, and the messages name what is missing: the name, the
    dosage, the times, in that order and no other. *)
Theorem add_medication_form_accepts_iff `{clock : Clock} (uid : string) (now : datetime)
    (med_name dosage0 : string) (doses_per_day : Z) (dose_time : nat → option time)
    (notes0 : string) (w : World) :
  let r := add_medication_form uid now med_name dosage0 doses_per_day dose_time notes0 w in
  (form_complete med_name dosage0 doses_per_day dose_time →
   r.2 = Added uid ∧
   ∃ m, medications (self r.1) !! uid = Some m ∧
     (name m, dosage m, notes m, active m) = (med_name, dosage0, notes0, true)) ∧
  (¬ form_complete med_name dosage0 doses_per_day dose_time →
   r.1 = w ∧
   r.2 = Rejected
           ((if decide (med_name = "") then ["medication name"] else []) ++
            (if decide (dosage0 = "") then ["dosage"] else []) ++
            (if decide (times_filled doses_per_day dose_time)
             then [] else ["all medication times"])) ∧
   ∃ msg msgs, r.2 = Rejected (msg :: msgs)).
Proof.
  cbn zeta. unfold add_medication_form.
  pose proof (form_condition med_name dosage0 doses_per_day dose_time) as Hcond.
  destruct (truthy med_name && truthy dosage0
            && bool_decide (Z.of_nat (length (collect_times doses_per_day dose_time))
                            = doses_per_day)
            && forallb truthy (collect_times doses_per_day dose_time)) eqn:Hc.
  - split; [|intros Hno; destruct Hno; by apply Hcond].
    intros _. cbn. split; [done|]. eexists. split; [apply lookup_insert_eq|done].
  - split; [intros Hyes; apply Hcond in Hyes; done|].
    intros Hno. cbn [fst snd].
    assert (Hmsgs :
      (if truthy med_name then [] else ["medication name"]) ++
      (if truthy dosage0 then [] else ["dosage"]) ++
      (if bool_decide (Z.of_nat (length (collect_times doses_per_day dose_time))
                       ≠ doses_per_day)
          || negb (forallb truthy (collect_times doses_per_day dose_time))
       then ["all medication times"] else [])
      = (if decide (med_name = "") then ["medication name"] else []) ++
        (if decide (dosage0 = "") then ["dosage"] else []) ++
        (if decide (times_filled doses_per_day dose_time)
         then [] else ["all medication times"])).
    { f_equal; [|f_equal].
      - destruct (truthy med_name) eqn:Hn.
        + apply truthy_true in Hn. by rewrite decide_False.
        + apply truthy_false in Hn. by rewrite decide_True.
      - destruct (truthy dosage0) eqn:Hd.
        + apply truthy_true in Hd. by rewrite decide_False.
        + apply truthy_false in Hd. by rewrite decide_True.
      - assert (forallb truthy (collect_times doses_per_day dose_time) = true) as ->.
        { rewrite collect_times_entered. apply forallb_truthy_times. }
        rewrite orb_false_r.
        destruct (decide (times_filled doses_per_day dose_time)) as [Hall|Hnall].
        + apply times_complete in Hall.
          rewrite bool_decide_eq_false_2; [done|]. by intros Hne.
        + rewrite bool_decide_eq_true_2; [done|].
          intros Hlen. by apply Hnall, times_complete. }
    rewrite Hmsgs. split; [done|]. split; [done|].
    unfold form_complete in Hno.
    destruct (decide (med_name = "")); [by do 2 eexists|].
    destruct (decide (dosage0 = "")); [by do 2 eexists|].
    destruct (decide (times_filled doses_per_day dose_time)); [|by do 2 eexists].
    destruct Hno. done.
Qed.

Lemma add_medication_form_witness_complete : form_complete "Aspirin" "100mg" 3 three_doses.
Proof.
  split; [done|]. split; [done|]. split; [done|].
  repeat constructor; by eexists.
Qed.

Lemma add_medication_form_accepts_iff_witness :
  (add_medication_form (clock := sample_clock) "A" 63809371800000000 "Aspirin" "100mg" 3
     three_doses "" fresh_world).2 = Added "A" ∧
  ∃ m, medications (self (add_medication_form (clock := sample_clock) "A" 63809371800000000
                            "Aspirin" "100mg" 3 three_doses "" fresh_world).1) !! "A"
       = Some m ∧
    (name m, dosage m, notes m, active m) = ("Aspirin", "100mg", "", true).
Proof.
  apply (add_medication_form_accepts_iff (clock := sample_clock) "A" 63809371800000000
           "Aspirin" "100mg" 3 three_doses "" fresh_world).
  apply add_medication_form_witness_complete.
Defined.

#[global] Instance string_le_total : Total string_le.
Proof. intros s1 s2. apply String.leb_total. Qed.

Lemma add_medication_form_complete `{clock : Clock} (uid : string) (now : datetime)
    (med_name dosage0 : string) (n : Z) (dose_time : nat → option time)
    (notes0 : string) (w : World) :
  form_complete med_name dosage0 n dose_time →
  add_medication_form uid now med_name dosage0 n dose_time notes0 w
  = ((add_medication uid now med_name dosage0 (pretty n +:+ " times daily")
        (merge_sort string_le (strftime_HM <$> entered_times n dose_time)) notes0 w).1,
     Added uid).
Proof.
  intros Hcomplete. unfold add_medication_form.
  rewrite (proj2 (form_condition _ _ _ _) Hcomplete).
  by rewrite collect_times_entered.
Qed.

(** X14. A medication added through the form has its times sorted in the
    order of [list.sort] on strings; they are the times entered, each once,
    [doses_per_day] of them, and the frequency reads "[doses_per_day] times
    daily". *)
Theorem add_medication_form_sorts_times `{clock : Clock} (uid : string) (now : datetime)
    (med_name dosage0 : string) (doses_per_day : Z) (dose_time : nat → option time)
    (notes0 : string) (w : World) :
  form_complete med_name dosage0 doses_per_day dose_time →
  ∃ m,
    medications (self (add_medication_form uid now med_name dosage0 doses_per_day
                         dose_time notes0 w).1) !! uid = Some m ∧
    times m ≡ₚ strftime_HM <$> entered_times doses_per_day dose_time ∧
    Sorted string_le (times m) ∧
    Z.of_nat (length (times m)) = doses_per_day ∧
    frequency m = pretty doses_per_day +:+ " times daily".
Proof.
  intros Hcomplete. rewrite (add_medication_form_complete _ _ _ _ _ _ _ _ Hcomplete).
  eexists. split; [apply lookup_insert_eq|]. cbn [times frequency].
  split; [apply merge_sort_Permutation|].
  split; [apply (Sorted_merge_sort string_le)|].
  split; [|done].
  rewrite merge_sort_Permutation, <- collect_times_entered.
  apply times_complete, Hcomplete.
Qed.

Lemma add_medication_form_sorts_times_witness :
  ∃ m,
    medications (self (add_medication_form (clock := sample_clock) "A" 63809371800000000
                         "Aspirin" "100mg" 3 three_doses "" fresh_world).1) !! "A"
    = Some m ∧
    times m ≡ₚ strftime_HM <$> entered_times 3 three_doses ∧
    Sorted string_le (times m) ∧
    Z.of_nat (length (times m)) = 3 ∧
    frequency m = pretty 3 +:+ " times daily".
Proof.
  apply (add_medication_form_sorts_times (clock := sample_clock)).
  apply add_medication_form_witness_complete.
Defined.

Example add_medication_form_three_doses :
  times <$> medications (self (add_medication_form (clock := sample_clock) "A"
                                 63809371800000000 "Aspirin" "100mg" 3 three_doses ""
                                 fresh_world).1) !! "A"
  = Some ["08:00"; "12:15"; "20:30"].
Proof. reflexivity. Qed.

Lemma digit_compare (x y : nat) :
  (x < 10)%nat → (y < 10)%nat → Ascii.compare (digit x) (digit y) = (x ?= y)%nat.
Proof.
  intros Hx Hy.
  do 10 (destruct x as [|x];
         [do 10 (destruct y as [|y]; [reflexivity|]); lia|]).
  lia.
Qed.

(** On times of the day, the order of the strings ["HH:MM"] is the order of
    the clock. *)
Lemma strftime_HM_order (a b : time) :
  valid_time a → valid_time b →
  string_le (strftime_HM a) (strftime_HM b) ↔ chrono_le a b.
Proof.
  destruct a as [h m], b as [h' m']. unfold valid_time, chrono_le, string_le. cbn [fst snd].
  intros [Hh Hm] [Hh' Hm'].
  pose proof (Nat.div_mod_eq h 10). pose proof (Nat.div_mod_eq h' 10).
  pose proof (Nat.div_mod_eq m 10). pose proof (Nat.div_mod_eq m' 10).
  pose proof (Nat.mod_upper_bound h 10). pose proof (Nat.mod_upper_bound h' 10).
  pose proof (Nat.mod_upper_bound m 10). pose proof (Nat.mod_upper_bound m' 10).
  change (strftime_HM (h, m)) with
    (String (digit (h / 10)) (String (digit (h mod 10)) (String (Ascii.ascii_of_nat 58)
       (String (digit (m / 10)) (String (digit (m mod 10)) ""))))).
  change (strftime_HM (h', m')) with
    (String (digit (h' / 10)) (String (digit (h' mod 10)) (String (Ascii.ascii_of_nat 58)
       (String (digit (m' / 10)) (String (digit (m' mod 10)) ""))))).
  unfold String.leb. cbn [String.compare].
  rewrite !digit_compare by lia.
  change (Ascii.compare (Ascii.ascii_of_nat 58) (Ascii.ascii_of_nat 58)) with Eq.
  destruct (Nat.compare_spec (h / 10) (h' / 10));
    destruct (Nat.compare_spec (h mod 10) (h' mod 10));
    destruct (Nat.compare_spec (m / 10) (m' / 10));
    destruct (Nat.compare_spec (m mod 10) (m' mod 10));
    cbn; split; intros; try done; lia.
Qed.

Lemma Sorted_strftime_HM (l : list time) :
  Forall valid_time l → Sorted string_le (strftime_HM <$> l) → Sorted chrono_le l.
Proof.
  induction l as [|a l IH]; intros Hvalid Hsorted; [constructor|].
  inversion Hvalid as [|? ? Ha Hl]; subst.
  cbn in Hsorted. inversion Hsorted as [|? ? Hrest Hhd]; subst.
  constructor; [by apply IH|].
  destruct l as [|b l]; [constructor|].
  inversion Hl; subst. inversion Hhd; subst.
  constructor. by apply strftime_HM_order.
Qed.

(** X15. With times of the day in the inputs, the times a medication added
    through the form stores are the times entered, rearranged from the
    earliest to the latest. *)
Theorem add_medication_form_chronological `{clock : Clock} (uid : string) (now : datetime)
    (med_name dosage0 : string) (doses_per_day : Z) (dose_time : nat → option time)
    (notes0 : string) (w : World) :
  form_complete med_name dosage0 doses_per_day dose_time →
  Forall valid_time (entered_times doses_per_day dose_time) →
  ∃ m l,
    medications (self (add_medication_form uid now med_name dosage0 doses_per_day
                         dose_time notes0 w).1) !! uid = Some m ∧
    l ≡ₚ entered_times doses_per_day dose_time ∧
    Sorted chrono_le l ∧
    times m = strftime_HM <$> l.
Proof.
  intros Hcomplete Hvalid. rewrite (add_medication_form_complete _ _ _ _ _ _ _ _ Hcomplete).
  set (entered := entered_times doses_per_day dose_time) in *.
  pose proof (merge_sort_Permutation string_le (strftime_HM <$> entered)) as Hsort.
  apply Permutation_map_inv in Hsort as (l & Hl & Hperm).
  exists {| name := med_name; dosage := dosage0;
            frequency := pretty doses_per_day +:+ " times daily";
            times := merge_sort string_le (strftime_HM <$> entered); notes := notes0;
            created_date := isoformat now; active := true;
            archived_date := None; archive_reason := None |}, l.
  split; [apply lookup_insert_eq|]. split; [done|]. split; [|exact Hl].
  apply Sorted_strftime_HM.
  - by rewrite <- Hperm.
  - change (map strftime_HM l) with (strftime_HM <$> l) in Hl. rewrite <- Hl.
    apply (Sorted_merge_sort string_le).
Qed.

Lemma add_medication_form_chronological_witness :
  ∃ m l,
    medications (self (add_medication_form (clock := sample_clock) "A" 63809371800000000
                         "Aspirin" "100mg" 3 three_doses "" fresh_world).1) !! "A"
    = Some m ∧
    l ≡ₚ entered_times 3 three_doses ∧
    Sorted chrono_le l ∧
    times m = strftime_HM <$> l.
Proof.
  apply (add_medication_form_chronological (clock := sample_clock)).
  - apply add_medication_form_witness_complete.
  - repeat constructor; cbn; lia.
Defined.

(** [string_le] is a total order, so a list has one sorted arrangement: the
    result of [list.sort] is the one [merge_sort] computes. *)
Lemma string_compare_Lt (s1 s2 : string) :
  String.compare s1 s2 = Lt ↔ OrdersEx.String_as_OT.lt s1 s2.
Proof.
  unfold OrdersEx.String_as_OT.lt. revert s2.
  induction s1 as [|c1 s1 IH]; intros [|c2 s2]; cbn; done.
Qed.

Lemma string_le_not_Lt (s1 s2 : string) :
  string_le s1 s2 ↔ ¬ OrdersEx.String_as_OT.lt s2 s1.
Proof.
  rewrite <- string_compare_Lt. unfold string_le, String.leb.
  rewrite (String.compare_antisym s2 s1).
  destruct (String.compare s1 s2); cbn; naive_solver.
Qed.

#[global] Instance string_le_trans : Transitive string_le.
Proof.
  intros s1 s2 s3. rewrite !string_le_not_Lt. intros H12 H23 H31.
  destruct (OrdersEx.String_as_OT.compare_spec s1 s2) as [->|Hlt|Hgt]; [done| |done].
  apply H23. by transitivity s1.
Qed.

#[global] Instance string_le_antisym : AntiSymm (=) string_le.
Proof. intros s1 s2. apply String.leb_antisym. Qed.

Lemma sort_unique (l sorted : list string) :
  sorted ≡ₚ l → Sorted string_le sorted → sorted = merge_sort string_le l.
Proof.
  intros Hperm Hsorted. apply (Sorted_unique string_le); [done| |].
  - apply (Sorted_merge_sort string_le).
  - by rewrite merge_sort_Permutation.
Qed.

(** *** Side effect history *)

Lemma insert_newest_first_Permutation (x : SideEffect) (l : list SideEffect) :
  insert_newest_first x l ≡ₚ x :: l.
Proof.
  induction l as [|y l IH]; [done|].
  cbn. destruct (String.ltb _ _); [|done].
  rewrite IH. apply Permutation_swap.
Qed.

Lemma newest_first_Permutation (l : list SideEffect) : newest_first l ≡ₚ l.
Proof.
  induction l as [|x l IH]; [done|].
  cbn. by rewrite insert_newest_first_Permutation, IH.
Qed.

Lemma ltb_string_le (s1 s2 : string) :
  (String.ltb s1 s2 = true → string_le s1 s2) ∧
  (String.ltb s1 s2 = false → string_le s2 s1).
Proof.
  unfold String.ltb, string_le, String.leb. rewrite (String.compare_antisym s2 s1).
  destruct (String.compare s1 s2); cbn; by split.
Qed.

Lemma insert_newest_first_Sorted (x : SideEffect) (l : list SideEffect) :
  Sorted not_older l → Sorted not_older (insert_newest_first x l).
Proof.
  induction l as [|y l IH]; intros Hsorted; [by repeat constructor|].
  inversion Hsorted as [|? ? Hl Hhd]; subst. cbn.
  destruct (String.ltb (se_timestamp x) (se_timestamp y)) eqn:Hxy.
  - constructor; [by apply IH|].
    destruct l as [|z l]; cbn.
    + constructor. by apply (proj1 (ltb_string_le _ _)).
    + inversion Hhd; subst.
      destruct (String.ltb (se_timestamp x) (se_timestamp z)); constructor; [done|].
      by apply (proj1 (ltb_string_le _ _)).
  - constructor; [done|]. constructor. by apply (proj2 (ltb_string_le _ _)).
Qed.

Lemma newest_first_Sorted (l : list SideEffect) : Sorted not_older (newest_first l).
Proof.
  induction l as [|x l IH]; [constructor|].
  cbn. by apply insert_newest_first_Sorted.
Qed.

#[global] Instance not_older_trans : Transitive not_older.
Proof. intros a b c Hab Hbc. unfold not_older in *. by transitivity (se_timestamp b). Qed.

Section HistoryProperties.
Context `{clock : Clock}.
Variable strftime_minute : datetime → string.

Lemma history_row_Ok (meds : gmap string Medication) (e : SideEffect) :
  (∃ r, history_row strftime_minute meds e = Ok r) ↔ displayable e.
Proof.
  unfold history_row, displayable, severity_display. split.
  - intros [r Hr]. repeat case_decide; try done;
      (split; [lia|]);
      (destruct (fromisoformat (se_timestamp e)) as [d|]; [by exists d|done]).
  - intros [Hsev [d Hd]]. rewrite Hd. repeat case_decide; try lia; by eexists.
Qed.

Lemma history_rows_Ok (meds : gmap string Medication) (l : list SideEffect) :
  (∃ rs, history_rows strftime_minute meds l = Ok rs ∧ length rs = length l) ↔
  Forall displayable l.
Proof.
  induction l as [|e l IH].
  - split; [constructor|]. by exists [].
  - cbn. split.
    + intros (rs & Hrs & Hlen).
      destruct (history_row strftime_minute meds e) as [r|] eqn:Hr; [|done].
      cbn in Hrs.
      destruct (history_rows strftime_minute meds l) as [rs'|] eqn:Hrs'; [|done].
      cbn in Hrs. injection Hrs as <-. cbn in Hlen.
      constructor.
      * apply (proj1 (history_row_Ok meds e)). by exists r.
      * apply IH. exists rs'. split; [done|lia].
    + intros Hall. inversion Hall as [|? ? He Hl]; subst.
      apply (proj2 (history_row_Ok meds e)) in He as [r ->].
      apply IH in Hl as (rs & -> & Hlen).
      exists (r :: rs). cbn. by rewrite Hlen.
Qed.

Lemma history_rows_raises (meds : gmap string Medication) (l : list SideEffect)
    (rs : list HistoryRow) :
  history_rows strftime_minute meds l = Ok rs → Forall displayable l.
Proof.
  revert rs. induction l as [|e l IH]; intros rs Hrs; [constructor|].
  cbn in Hrs.
  destruct (history_row strftime_minute meds e) as [r|] eqn:Hr; [|done].
  cbn in Hrs.
  destruct (history_rows strftime_minute meds l) as [rs'|] eqn:Hrs'; [|done].
  constructor; [apply (proj1 (history_row_Ok meds e)); by exists r | by eapply IH].
Qed.

End HistoryProperties.

(** X16. The history shows the newest entries: at most ten, from the newest
    to the oldest by timestamp string, and no entry left out is newer than
    one that is shown. *)
Theorem history_shows_newest (l : list SideEffect) :
  let shown := take 10 (newest_first l) in
  let left_out := drop 10 (newest_first l) in
  shown ++ left_out ≡ₚ l ∧
  length shown = (length l `min` 10)%nat ∧
  Sorted not_older shown ∧
  ∀ a b, a ∈ shown → b ∈ left_out → not_older a b.
Proof.
  cbn zeta. pose proof (newest_first_Sorted l) as Hsorted.
  apply (Sorted_StronglySorted not_older) in Hsorted.
  rewrite <- (take_drop 10 (newest_first l)) in Hsorted.
  apply StronglySorted_app in Hsorted as (Hcross & Hshown & _).
  split. { rewrite take_drop. apply newest_first_Permutation. }
  split. { rewrite length_take, (Permutation_length (newest_first_Permutation l)). lia. }
  split. { by apply StronglySorted_Sorted. }
  done.
Qed.

(** X17. The history renders when every stored side effect has a severity
    within 1..5 and a timestamp that parses, and shows one row per entry up
    to ten. *)
Theorem side_effect_history_renders `{clock : Clock} (strftime_minute : datetime → string)
    (t : MedicationTracker) :
  Forall displayable (side_effects t) →
  ∃ rows, side_effect_history strftime_minute t = Ok rows ∧
    length rows = (length (side_effects t) `min` 10)%nat.
Proof.
  intros Hall. unfold side_effect_history.
  assert (Hshown : Forall displayable (take 10 (newest_first (side_effects t)))).
  { apply Forall_take. by rewrite newest_first_Permutation. }
  apply (history_rows_Ok strftime_minute (medications t)) in Hshown as (rows & -> & Hlen).
  exists rows. split; [done|].
  rewrite Hlen, length_take, (Permutation_length (newest_first_Permutation _)). lia.
Qed.

Lemma side_effect_history_renders_witness :
  ∃ rows,
    side_effect_history (clock := sample_clock) (λ _, "2024-06-01 08:00") (self mixed_world)
    = Ok rows ∧
    length rows = (length (side_effects (self mixed_world)) `min` 10)%nat.
Proof.
  apply (side_effect_history_renders (clock := sample_clock)).
  repeat constructor; cbn; try lia; eexists; reflexivity.
Defined.

(** X18. With at most ten side effects stored, the history raises as soon as
    one of them has a severity outside 1..5 (which [log_side_effect]
    accepts) or a timestamp that does not parse. *)
Theorem side_effect_history_raises `{clock : Clock} (strftime_minute : datetime → string)
    (t : MedicationTracker) :
  (length (side_effects t) ≤ 10)%nat →
  ¬ Forall displayable (side_effects t) →
  ∃ e, side_effect_history strftime_minute t = Raise e.
Proof.
  intros Hlen Hbad. unfold side_effect_history.
  destruct (history_rows strftime_minute (medications t)
              (take 10 (newest_first (side_effects t)))) as [rows|e] eqn:Hrows;
    [|by exists e].
  destruct Hbad. apply history_rows_raises in Hrows.
  rewrite take_ge in Hrows
    by (rewrite (Permutation_length (newest_first_Permutation _)); lia).
  by rewrite <- (newest_first_Permutation (side_effects t)).
Qed.

(** A severity of 7, logged into the sample world, breaks the page. *)
Lemma side_effect_history_raises_witness :
  ∃ e,
    side_effect_history (clock := sample_clock) (λ _, "2024-06-01 08:00")
      (self (log_side_effect (clock := sample_clock) "e5" 63877204800000000 "A"
               "Nausea" 7 "" mixed_world))
    = Raise e.
Proof.
  apply (side_effect_history_raises (clock := sample_clock)).
  - cbn. lia.
  - intros Hall. cbn in Hall.
    do 4 (apply Forall_cons in Hall as [_ Hall]).
    apply Forall_cons in Hall as [[Hsev _] _]. cbn in Hsev. lia.
Defined.

(** *** "Export Data" *)

(** X19. The export is a document [load_data] accepts: put in place of the
    backing file, it loads to the tracker it was exported from, whatever the
    export date. *)
Theorem export_data_loads `{clock : Clock} (now : datetime) (t : MedicationTracker) :
  load_data (Some (Document (export_data now t))) = Ok (attributes t) ∧
  tracker_of (attributes t) = Some t.
Proof.
  split; [|apply tracker_of_attributes].
  unfold export_data. rewrite load_data_document. by destruct (attributes t).
Qed.

(** *** Totals and averages of the analysis table *)

Lemma total_rows_comm (j1 j2 : string) (z1 z2 : Analysis) (y : Z) :
  total_effects z1 + (total_effects z2 + y) = total_effects z2 + (total_effects z1 + y).
Proof. lia. Qed.

Lemma total_rows_insert (rows : gmap string Analysis) (k : string) (a : Analysis) :
  rows !! k = None → total_rows (<[k := a]> rows) = total_effects a + total_rows rows.
Proof.
  intros Hk. unfold total_rows. rewrite map_fold_insert_L; [done| |done].
  intros. apply total_rows_comm; done.
Qed.

Lemma total_rows_delete (rows : gmap string Analysis) (k : string) (a : Analysis) :
  rows !! k = Some a → total_rows rows = total_effects a + total_rows (delete k rows).
Proof.
  intros Hk. unfold total_rows. rewrite (map_fold_delete_L _ _ k a); [done| |done].
  intros. apply total_rows_comm; done.
Qed.

Lemma total_rows_analyse_effect (meds : gmap string Medication)
    (rows : gmap string Analysis) (e : SideEffect) :
  total_rows (analyse_effect meds rows e) = total_rows rows + 1.
Proof.
  unfold analyse_effect. set (n := med_name_of meds (med_id e)).
  destruct (rows !! n) as [a|] eqn:Hn.
  - rewrite (contains_Some _ _ _ Hn).
    rewrite (total_rows_delete rows n a Hn).
    rewrite (total_rows_delete (alter _ n rows) n
               {| total_effects := total_effects a + 1; avg_severity := avg_severity a;
                  severities := severities a ++ [severity e] |})
      by (by rewrite lookup_alter_eq, Hn).
    rewrite delete_alter, decide_True by done. cbn. lia.
  - rewrite (contains_None _ _ Hn).
    rewrite (total_rows_delete (alter _ n (<[n := _]> rows)) n
               {| total_effects := 0 + 1; avg_severity := 0%Q;
                  severities := [] ++ [severity e] |})
      by (by rewrite lookup_alter_eq, lookup_insert_eq).
    rewrite delete_alter, decide_True by done.
    rewrite delete_insert_id by done. cbn. lia.
Qed.

(** X20. The totals of the analysis table add up to the number of side
    effects: every entry is counted in one row and only one. *)
Theorem med_analysis_counts_every_entry (meds : gmap string Medication)
    (effects : list SideEffect) :
  total_rows (med_analysis meds effects) = Z.of_nat (length effects).
Proof.
  unfold med_analysis, total_rows. rewrite map_fold_fmap.
  change (map_fold _ 0 ?m) with (total_rows m).
  induction effects as [|e effects IH] using rev_ind; [done|].
  rewrite foldl_snoc, total_rows_analyse_effect, IH, length_app. cbn. lia.
Qed.

Lemma sum_bounds (lo hi : Z) (l : list Z) :
  Forall (λ z, lo ≤ z ≤ hi) l →
  lo * Z.of_nat (length l) ≤ sum l ≤ hi * Z.of_nat (length l).
Proof.
  induction 1 as [|z l Hz _ IH]; cbn [sum foldr length]; [lia|].
  fold (sum l). lia.
Qed.

Lemma mean_bounds (lo hi : Z) (l : list Z) :
  l ≠ [] → Forall (λ z, lo ≤ z ≤ hi) l →
  (inject_Z lo <= mean l)%Q ∧ (mean l <= inject_Z hi)%Q.
Proof.
  intros Hne Hall. pose proof (sum_bounds lo hi l Hall) as [Hlo Hhi].
  assert (Hlen : (0 < inject_Z (Z.of_nat (length l)))%Q).
  { rewrite <- (Zlt_Qlt 0). destruct l; [done|]. cbn. lia. }
  unfold mean. split.
  - apply Qle_shift_div_l; [done|]. rewrite <- inject_Z_mult. by rewrite <- Zle_Qle.
  - apply Qle_shift_div_r; [done|]. rewrite <- inject_Z_mult. by rewrite <- Zle_Qle.
Qed.

(** X21. When every stored severity is within 1..5, so is the average
    severity of every row of the analysis, and every row counts at least
    one entry. *)
Theorem med_analysis_average_in_range (meds : gmap string Medication)
    (effects : list SideEffect) (n : string) (a : Analysis) :
  Forall (λ e, 1 ≤ severity e ≤ 5) effects →
  med_analysis meds effects !! n = Some a →
  (1 <= avg_severity a)%Q ∧ (avg_severity a <= 5)%Q ∧ 1 ≤ total_effects a.
Proof.
  intros Hall Hrow. rewrite med_analysis_lookup in Hrow. cbn zeta in Hrow.
  case_decide as Hgroup; [done|]. injection Hrow as <-. cbn.
  assert (Hsev : Forall (λ z, 1 ≤ z ≤ 5) (severity <$> filter (shown_as meds n) effects)).
  { apply Forall_fmap. rewrite Forall_forall in Hall. apply Forall_forall.
    intros e [_ He]%list_elem_of_filter. by apply Hall. }
  assert (Hne : severity <$> filter (shown_as meds n) effects ≠ []).
  { by destruct (filter (shown_as meds n) effects). }
  destruct (mean_bounds 1 5 _ Hne Hsev) as [Hlo Hhi].
  split; [done|]. split; [done|].
  destruct (filter (shown_as meds n) effects); [done|]. cbn. lia.
Qed.

Lemma med_analysis_average_in_range_witness :
  (1 <= mean [1; 3; 5]%Z)%Q ∧ (mean [1; 3; 5]%Z <= 5)%Q ∧ 1 ≤ 3.
Proof.
  apply (med_analysis_average_in_range mixed_meds mixed_effects "Aspirin"
           {| total_effects := 3; avg_severity := mean [1; 3; 5]; severities := [1; 3; 5] |}).
  - repeat constructor; cbn; lia.
  - reflexivity.
Defined.

(** Entries with the same timestamp keep the order of the list, as with
    [sorted(..., reverse=True)]. *)
Example newest_first_equal_timestamps :
  se_id <$> newest_first
    [ headache "e1" "A" "2024-06-01T08:00:00" 1;
      headache "e2" "A" "2023-01-15T09:30:00" 2;
      headache "e3" "B" "2024-06-01T08:00:00" 3 ]
  = ["e1"; "e3"; "e2"].
Proof. reflexivity. Qed.
